(** * Data Visualizer: the format-dispatch and extraction pipeline of app.py

    A shallow embedding of the helper functions and of the main dispatch of
    [app.py], followed by the properties of the pipeline.

    Conventions of the embedding.
    - A Python [str] is a list of Unicode code points ([char := N]), so that
      [len], slicing, [strip] and [lower] count and inspect code points as
      Python does.
    - A Python [int] is a [Z]; Python lists are Rocq lists, indexed with
      [py_getitem], which implements negative indices and [IndexError].
    - Exceptions are values of [exn]; a computation that may raise returns a
      [result].  The Streamlit calls of the main logic are recorded, in
      order, as a list of [ui_call]s by the small monad [script].
    - The third-party libraries (pandas, pdfplumber, python-docx, plotly,
      wordcloud) are outside the repository.  What a parser returns for the
      uploaded bytes is a field of [UploadedFile]; a plotting call is
      represented by the arguments it receives; whether the word-cloud
      library raises on a text is a parameter of the script.
    - [st.cache_data] memoizes pure functions and is transparent here. *)

From Stdlib Require Import List ZArith NArith Lia Bool String Ascii.
From Stdlib Require Import Sorting.Sorted Sorting.Permutation.
Import ListNotations.
Local Open Scope Z_scope.

(* ------------------------------------------------------------------ *)
(** ** Python strings *)

Definition char := N.
Definition str := list char.

(** ASCII literal of the source as a [str]. *)
Definition lit (s : string) : str :=
  List.map N_of_ascii (list_ascii_of_string s).

Definition char_eqb (a b : char) : bool := N.eqb a b.

Fixpoint str_eqb (a b : str) : bool :=
  match a, b with
  | [], [] => true
  | x :: a', y :: b' => char_eqb x y && str_eqb a' b'
  | _, _ => false
  end.

(** [x in l] for a list of strings. *)
Fixpoint str_in (x : str) (l : list str) : bool :=
  match l with
  | [] => false
  | y :: l' => str_eqb x y || str_in x l'
  end.

(** [len(x)] *)
Definition len {A} (l : list A) : Z := Z.of_nat (List.length l).

(** Truth value of a string or list: non-empty. *)
Definition truthy {A} (l : list A) : bool :=
  match l with [] => false | _ => true end.

(** [Py_UNICODE_ISSPACE]: the code points [str.strip()] removes. *)
Definition isspace (c : char) : bool :=
  ((9 <=? c) && (c <=? 13) || (28 <=? c) && (c <=? 32)
   || (c =? 133) || (c =? 160) || (c =? 5760)
   || (8192 <=? c) && (c <=? 8202)
   || (c =? 8232) || (c =? 8233) || (c =? 8239) || (c =? 8287)
   || (c =? 12288))%N.

Fixpoint lstrip (s : str) : str :=
  match s with
  | [] => []
  | c :: s' => if isspace c then lstrip s' else s
  end.

Definition rstrip (s : str) : str := rev (lstrip (rev s)).

(** [s.strip()] *)
Definition strip (s : str) : str := rstrip (lstrip s).

(** [sep.join(l)] *)
Fixpoint join (sep : str) (l : list str) : str :=
  match l with
  | [] => []
  | [x] => x
  | x :: l' => x ++ sep ++ join sep l'
  end.

(** [s.split(sep)] for a one-character separator: the pieces between the
    occurrences of [sep]; never the empty list. *)
Fixpoint split (sep : char) (s : str) : list str :=
  match s with
  | [] => [[]]
  | c :: s' =>
      if char_eqb c sep then [] :: split sep s'
      else match split sep s' with
           | [] => [[c]]
           | piece :: pieces => (c :: piece) :: pieces
           end
  end.

Definition is_ascii (c : char) : bool := (c <? 128)%N.

(** Lower-casing of one ASCII character. *)
Definition ascii_lower (c : char) : char :=
  if ((65 <=? c) && (c <=? 90))%N then (c + 32)%N else c.

(** [s[:k]] *)
Definition slice_to {A} (l : list A) (k : Z) : list A :=
  if k <? 0 then firstn (Z.to_nat (len l + k)) l
  else firstn (Z.to_nat k) l.

(* ------------------------------------------------------------------ *)
(** ** Exceptions and results *)

Inductive exn : Type :=
| IndexError
| AttributeError
| ValueError
| LibraryError (what : str).

Inductive result (A : Type) : Type :=
| Ok (a : A)
| Raise (e : exn).
Arguments Ok {A} a.
Arguments Raise {A} e.

Definition rbind {A B} (r : result A) (k : A -> result B) : result B :=
  match r with
  | Ok a => k a
  | Raise e => Raise e
  end.

Declare Scope result_scope.
Delimit Scope result_scope with result.
Notation "x <- r ;; k" := (rbind r (fun x => k))
  (at level 61, r at next level, right associativity) : result_scope.

(** [l[i]] with Python's negative indices. *)
Definition py_getitem {A} (l : list A) (i : Z) : result A :=
  let j := if i <? 0 then i + len l else i in
  if j <? 0 then Raise IndexError
  else match nth_error l (Z.to_nat j) with
       | Some a => Ok a
       | None => Raise IndexError
       end.

(** [range(a, b)] *)
Definition range (a b : Z) : list Z :=
  List.map (fun k => a + Z.of_nat k) (seq 0 (Z.to_nat (b - a))).

(* ------------------------------------------------------------------ *)
(** ** The uploaded file and what the parsers make of it *)

(** A pdfplumber page; [extract_text()] returns a string or [None]. *)
Record Page : Type := { extract_text : option str }.

(** A python-docx paragraph. *)
Record Paragraph : Type := { text : str }.

(** A pandas data frame: named columns over rows of cells. *)
Record DataFrame : Type := {
  columns : list str;
  rows : list (list str)
}.

(** [df.head()] *)
Definition head (df : DataFrame) : DataFrame :=
  {| columns := columns df; rows := firstn 5 (rows df) |}.

(** The uploaded file: its name, and the outcome of handing its bytes to
    each of the parsers the script may call on it. *)
Record UploadedFile : Type := {
  name : str;
  pdfplumber_open : result (list Page);
  docx_Document : result (list Paragraph);
  pd_read_csv : result DataFrame;
  pd_ExcelFile : result (list (str * DataFrame))
}.

(* ------------------------------------------------------------------ *)
(** ** Helper functions *)

(** [page.extract_text() or ""] *)
Definition text_or_empty (page : Page) : str :=
  match extract_text page with
  | Some s => if truthy s then s else []
  | None => []
  end.

(** The body of the [for i in range(start_page, end_page)] loop, run over
    the indices of the range with the accumulated [text]. *)
Fixpoint pdf_loop (pages : list Page) (indices : list Z) (acc : str)
  : result str :=
  match indices with
  | [] => Ok acc
  | i :: rest =>
      (page <- py_getitem pages i ;;
       pdf_loop pages rest (acc ++ text_or_empty page))%result
  end.

(** [extract_text_from_pdf(file, start_page, end_page)] *)
Definition extract_text_from_pdf (file : UploadedFile)
  (start_page end_page : Z) : result str :=
  (pdf <- pdfplumber_open file ;;
   let total_pages := len pdf in
   let end_page := Z.min end_page total_pages in
   pdf_loop pdf (range start_page end_page) [])%result.

(** The list comprehension [[p.text for p in paragraphs if p.text.strip()]]. *)
Fixpoint nonblank_texts (paragraphs : list Paragraph) : list str :=
  match paragraphs with
  | [] => []
  | p :: rest =>
      if truthy (strip (text p)) then text p :: nonblank_texts rest
      else nonblank_texts rest
  end.

(** [extract_text_from_docx(file)] *)
Definition extract_text_from_docx (file : UploadedFile) : result str :=
  (doc <- docx_Document file ;;
   Ok (join (lit " ") (nonblank_texts doc)))%result.

(** [get_excel_sheet_names(file)] *)
Definition get_excel_sheet_names (file : UploadedFile) : result (list str) :=
  (xls <- pd_ExcelFile file ;; Ok (List.map fst xls))%result.

(** [read_excel(file, sheet_name)] for the name of a sheet. *)
Definition read_excel (file : UploadedFile) (sheet_name : str)
  : result DataFrame :=
  (xls <- pd_ExcelFile file ;;
   match find (fun sheet => str_eqb (fst sheet) sheet_name) xls with
   | Some sheet => Ok (snd sheet)
   | None => Raise (LibraryError (lit "Worksheet not found"))
   end)%result.

(** [read_csv(file)] *)
Definition read_csv (file : UploadedFile) : result DataFrame :=
  pd_read_csv file.

(** A [WordCloud] object as the constructor call configures it. *)
Record WordCloud : Type := {
  width : Z;
  height : Z;
  background_color : str;
  max_words : Z
}.

(** The object after a successful [.generate(text)]: its configuration and
    the text it was generated from. *)
Record GeneratedCloud : Type := {
  settings : WordCloud;
  source_text : str
}.

Section WordCloudLibrary.

(** The word-cloud library is not part of the repository.  Its
    [generate] raises on some texts (ValueError when it finds no word to
    plot): the exception, if any, that [.generate(text)] raises for a cloud
    with the given configuration is a parameter. *)
Variable wordcloud_raises : WordCloud -> str -> option exn.

(** [wc.generate(text)] *)
Definition generate (wc : WordCloud) (text : str) : result GeneratedCloud :=
  match wordcloud_raises wc text with
  | Some e => Raise e
  | None => Ok {| settings := wc; source_text := text |}
  end.

(** [generate_wordcloud(text)] *)
Definition generate_wordcloud (text : str) : result GeneratedCloud :=
  (wc <- generate {| width := 800; height := 400;
                     background_color := lit "white";
                     max_words := 200 |} text ;;
   Ok wc)%result.

End WordCloudLibrary.

(* ------------------------------------------------------------------ *)
(** ** Streamlit calls and the script monad *)

(** The options of the chart-type select box. *)
Inductive ChartType : Type :=
| Bar_Chart
| Pie_Chart
| Line_Chart
| Scatter_Plot.

(** A plotly express figure, as the call that builds it. *)
Inductive Figure : Type :=
| px_bar (df : DataFrame) (x y : str) (title : option str)
| px_pie (df : DataFrame) (names values : str) (title : option str)
| px_line (df : DataFrame) (x y : str) (title : option str)
| px_scatter (df : DataFrame) (x y : str) (title : option str).

Definition figure_kind (fig : Figure) : ChartType :=
  match fig with
  | px_bar _ _ _ _ => Bar_Chart
  | px_pie _ _ _ _ => Pie_Chart
  | px_line _ _ _ _ => Line_Chart
  | px_scatter _ _ _ _ => Scatter_Plot
  end.

(** The column on the x (category) axis and on the y (value) axis. *)
Definition figure_x (fig : Figure) : str :=
  match fig with
  | px_bar _ x _ _ | px_pie _ x _ _ | px_line _ x _ _
  | px_scatter _ x _ _ => x
  end.

Definition figure_y (fig : Figure) : str :=
  match fig with
  | px_bar _ _ y _ | px_pie _ _ y _ | px_line _ _ y _
  | px_scatter _ _ y _ => y
  end.

Definition figure_title (fig : Figure) : option str :=
  match fig with
  | px_bar _ _ _ t | px_pie _ _ _ t | px_line _ _ _ t
  | px_scatter _ _ _ t => t
  end.

(** The calls the main logic makes on the page, in order. *)
Inductive ui_call : Type :=
| st_subheader (body : str)
| st_dataframe (df : DataFrame)
| st_selectbox (label : str) (options : list str)
| st_multiselect (label : str) (options : list str)
| st_plotly_chart (fig : Figure)
| st_write (body : str)
| st_pyplot (image : GeneratedCloud)
| st_info (body : str).

(** What the user has set on the page when the script runs. *)
Record Session : Type := {
  uploaded_file : option UploadedFile;
  chart_type : ChartType;
  (** position picked in the sheet select box *)
  sheet_choice : nat;
  (** the value of the column multiselect: the picked columns, in the
      order the user picked them *)
  selected_columns : list str
}.

(** A run of the script: the calls made so far, and a value or the
    exception that stopped it. *)
Definition script (A : Type) : Type := (list ui_call * result A)%type.

Definition ret {A} (a : A) : script A := ([], Ok a).

Definition raise {A} (e : exn) : script A := ([], Raise e).

Definition call (c : ui_call) : script unit := ([c], Ok tt).

Definition lift {A} (r : result A) : script A := ([], r).

Definition bind {A B} (m : script A) (k : A -> script B) : script B :=
  match m with
  | (out, Ok a) => let (out', r) := k a in (out ++ out', r)
  | (out, Raise e) => (out, Raise e)
  end.

Declare Scope script_scope.
Delimit Scope script_scope with script.
Notation "x <- m ;; k" := (bind m (fun x => k))
  (at level 61, m at next level, right associativity) : script_scope.
Notation "m ;; k" := (bind m (fun _ => k))
  (at level 61, right associativity) : script_scope.

Definition calls {A} (m : script A) : list ui_call := fst m.
Definition outcome {A} (m : script A) : result A := snd m.

(** The figures handed to [st.plotly_chart] and the clouds handed to
    [st.pyplot] during a run. *)
Definition charts_of (out : list ui_call) : list Figure :=
  flat_map (fun c => match c with st_plotly_chart fig => [fig] | _ => [] end)
           out.

Definition clouds_of (out : list ui_call) : list GeneratedCloud :=
  flat_map (fun c => match c with st_pyplot image => [image] | _ => [] end)
           out.

(** The text shown by [st.write]. *)
Definition written_of (out : list ui_call) : list str :=
  flat_map (fun c => match c with st_write body => [body] | _ => [] end) out.

(** [st.subheader], [st.write], ... as script steps. *)
Definition subheader (body : str) : script unit := call (st_subheader body).
Definition dataframe (df : DataFrame) : script unit := call (st_dataframe df).
Definition plotly_chart (fig : Figure) : script unit :=
  call (st_plotly_chart fig).
Definition write (body : str) : script unit := call (st_write body).
Definition info (body : str) : script unit := call (st_info body).

(** [fig, ax = plt.subplots(...); ax.imshow(wc, ...); ax.axis("off");
    st.pyplot(fig)] *)
Definition pyplot_imshow (wc : GeneratedCloud) : script unit :=
  call (st_pyplot wc).

(** [st.sidebar.selectbox(label, options)]: shows the box and returns the
    option at the picked position, [None] when there is none. *)
Definition selectbox (label : str) (options : list str) (choice : nat)
  : script (option str) :=
  (call (st_selectbox label options) ;; ret (nth_error options choice))%script.

(** [st.multiselect(label, options)]: shows the widget and returns the
    user's selection. *)
Definition multiselect (label : str) (options : list str)
  (selection : list str) : script (list str) :=
  (call (st_multiselect label options) ;; ret selection)%script.

(* ------------------------------------------------------------------ *)
(** ** Main logic *)

(** The emoji of the headings. *)
Definition bookmark_tabs : str := [128209%N].
Definition cloud : str := [9729%N].

(** The preview expression
    [text[:2000] + "..." if len(text) > 2000 else text]. *)
Definition preview (text : str) : str :=
  if len text >? 2000 then slice_to text 2000 ++ lit "..." else text.

Section Main.

(** [str.lower] lower-cases an all-ASCII string character by character;
    for any other string it consults the Unicode case tables of the
    interpreter, which are a parameter here. *)
Variable unicode_lower : str -> str.

(** What the word-cloud library raises, as in [generate]. *)
Variable wordcloud_raises : WordCloud -> str -> option exn.

Definition lower (s : str) : str :=
  if forallb is_ascii s then List.map ascii_lower s else unicode_lower s.

(** [uploaded_file.name.split(".")[-1].lower()] *)
Definition file_type_of (file : UploadedFile) : result str :=
  (last_piece <- py_getitem (split 46%N (name file)) (-1) ;;
   Ok (lower last_piece))%result.

(** Lines 94-107: column selection and chart of the Excel branch. *)
Definition excel_chart (ui : Session) (df : DataFrame) : script unit :=
  (cols <- multiselect (lit "Select Columns to Visualize") (columns df)
                       (selected_columns ui) ;;
   if len cols >=? 2 then
     x_axis <- lift (py_getitem cols 0) ;;
     y_axis <- lift (py_getitem cols 1) ;;
     let fig :=
       match chart_type ui with
       | Bar_Chart =>
           px_bar df x_axis y_axis (Some (y_axis ++ lit " by " ++ x_axis))
       | Pie_Chart =>
           px_pie df x_axis y_axis
                  (Some (y_axis ++ lit " distribution by " ++ x_axis))
       | Line_Chart =>
           px_line df x_axis y_axis
                   (Some (y_axis ++ lit " trend by " ++ x_axis))
       | Scatter_Plot =>
           px_scatter df x_axis y_axis
                      (Some (y_axis ++ lit " vs " ++ x_axis))
       end in
     plotly_chart fig
   else ret tt)%script.

(** Lines 85-107: Excel handling. *)
Definition excel_handling (ui : Session) (file : UploadedFile)
  : script unit :=
  (sheet_names <- lift (get_excel_sheet_names file) ;;
   selected_sheet <- selectbox (lit "Choose a Sheet") sheet_names
                               (sheet_choice ui) ;;
   match selected_sheet with
   | Some sheet =>
       df <- lift (read_excel file sheet) ;;
       subheader (bookmark_tabs ++ lit " Data Preview: " ++ sheet) ;;
       dataframe (head df) ;;
       excel_chart ui df
   | None =>
       (* [pd.read_excel(..., sheet_name=None)] returns a dict of frames,
          which has no [head] *)
       _ <- lift (pd_ExcelFile file) ;;
       subheader (bookmark_tabs ++ lit " Data Preview: None") ;;
       raise AttributeError
   end)%script.

(** Lines 115-128: column selection and chart of the CSV branch. *)
Definition csv_chart (ui : Session) (df : DataFrame) : script unit :=
  (cols <- multiselect (lit "Select Columns to Visualize") (columns df)
                       (selected_columns ui) ;;
   if len cols >=? 2 then
     x_axis <- lift (py_getitem cols 0) ;;
     y_axis <- lift (py_getitem cols 1) ;;
     let fig :=
       match chart_type ui with
       | Bar_Chart => px_bar df x_axis y_axis None
       | Pie_Chart => px_pie df x_axis y_axis None
       | Line_Chart => px_line df x_axis y_axis None
       | Scatter_Plot => px_scatter df x_axis y_axis None
       end in
     plotly_chart fig
   else ret tt)%script.

(** Lines 110-128: CSV handling. *)
Definition csv_handling (ui : Session) (file : UploadedFile) : script unit :=
  (df <- lift (read_csv file) ;;
   subheader (bookmark_tabs ++ lit " Data Preview") ;;
   dataframe (head df) ;;
   csv_chart ui df)%script.

(** Lines 134-142 and 148-156: the preview of the extracted [text] and,
    if [text] is true, its word cloud under the given heading. *)
Definition show_text (text : str) (heading : str) : script unit :=
  (write (preview text) ;;
   if truthy text then
     wc <- lift (generate_wordcloud wordcloud_raises text) ;;
     subheader heading ;;
     pyplot_imshow wc
   else ret tt)%script.

(** Lines 131-142: PDF text extraction. *)
Definition pdf_handling (file : UploadedFile) : script unit :=
  (subheader (bookmark_tabs ++ lit " Extracted Text from PDF") ;;
   text <- lift (extract_text_from_pdf file 0 5) ;;
   show_text text (cloud ++ lit " Word Cloud from PDF"))%script.

(** Lines 145-156: Word document handling. *)
Definition docx_handling (file : UploadedFile) : script unit :=
  (subheader (bookmark_tabs ++ lit " Extracted Text from Word Document") ;;
   text <- lift (extract_text_from_docx file) ;;
   show_text text (cloud ++ lit " Word Cloud from Word Document"))%script.

(** The branch of the [if]/[elif] chain a file type selects. *)
Inductive FormatTag : Type :=
| Spreadsheet
| DelimitedText
| PortableDocument
| WordDocument.

Definition classify (file_type : str) : option FormatTag :=
  if str_in file_type [lit "xlsx"; lit "xls"] then Some Spreadsheet
  else if str_eqb file_type (lit "csv") then Some DelimitedText
  else if str_eqb file_type (lit "pdf") then Some PortableDocument
  else if str_eqb file_type (lit "docx") then Some WordDocument
  else None.

Definition handle (ui : Session) (file : UploadedFile) (tag : FormatTag)
  : script unit :=
  match tag with
  | Spreadsheet => excel_handling ui file
  | DelimitedText => csv_handling ui file
  | PortableDocument => pdf_handling file
  | WordDocument => docx_handling file
  end.

(** Lines 81-159: the main logic. *)
Definition main (ui : Session) : script unit :=
  match uploaded_file ui with
  | Some file =>
      (file_type <- lift (file_type_of file) ;;
       if str_in file_type [lit "xlsx"; lit "xls"] then
         excel_handling ui file
       else if str_eqb file_type (lit "csv") then
         csv_handling ui file
       else if str_eqb file_type (lit "pdf") then
         pdf_handling file
       else if str_eqb file_type (lit "docx") then
         docx_handling file
       else ret tt)%script
  | None =>
      info (lit "Please upload a file from the sidebar to get started.")
  end.

End Main.

(* ------------------------------------------------------------------ *)
(** ** What the word-cloud library renders *)

Section Rendering.

(** Modelled from the spec: the "standard stop-word set" of the word-cloud
    library, which is not part of the repository; any table. *)
Variable STOPWORDS : list str.

(** Modelled from the spec: the tokenizer of the word-cloud library, which
    is not part of the repository ("tokenizes text into words
    internally"): the words are the maximal runs of characters that are not
    white space.  [cur] is the word being read, most recent character
    first. *)
Fixpoint tokenize_from (s : str) (cur : str) : list str :=
  match s with
  | [] => if truthy cur then [rev cur] else []
  | c :: s' =>
      if isspace c then
        if truthy cur then rev cur :: tokenize_from s' []
        else tokenize_from s' []
      else tokenize_from s' (c :: cur)
  end.

(** Modelled from the spec: the words of a text, in order. *)
Definition tokenize (s : str) : list str := tokenize_from s [].

(** Modelled from the spec: "drops a standard stop-word set". *)
Definition drop_stopwords (ws : list str) : list str :=
  filter (fun w => negb (str_in w STOPWORDS)) ws.










End Rendering.

(* ------------------------------------------------------------------ *)
(** ** Specification-side notions *)

(** The pages with indices in [[a, b)]. *)
Definition pages_between {A} (l : list A) (a b : Z) : list A :=
  firstn (Z.to_nat (b - a)) (skipn (Z.to_nat a) l).

(** The text of a page, the empty string when it has none. *)
Definition page_text (page : Page) : str :=
  match extract_text page with
  | Some s => s
  | None => []
  end.

(** Some character of [s] is not white space. *)
Definition has_visible_char (s : str) : bool :=
  existsb (fun c => negb (isspace c)) s.

(** The upper-case form of a lower-case ASCII letter. *)
Definition ascii_upper (c : char) : char :=
  if ((97 <=? c) && (c <=? 122))%N then (c - 32)%N else c.

(** [v] spells [ext] up to the case of each letter. *)
Definition case_variant (v ext : str) : Prop :=
  Forall2 (fun c e => c = e \/ c = ascii_upper e) v ext.

(** A lower-case ASCII letter. *)
Definition lower_letter (e : char) : bool := ((97 <=? e) && (e <=? 122))%N.

(** The session with another value of the column multiselect. *)
Definition with_columns (ui : Session) (cols : list str) : Session :=
  {| uploaded_file := uploaded_file ui;
     chart_type := chart_type ui;
     sheet_choice := sheet_choice ui;
     selected_columns := cols |}.

(** The (x, y) columns of the figures handed to the page. *)
Definition axes_of (out : list ui_call) : list (str * str) :=
  List.map (fun fig => (figure_x fig, figure_y fig)) (charts_of out).

(** The excerpt of a text: the text itself up to 2000 characters,
    otherwise its first 2000 characters followed by an ellipsis. *)
Definition excerpt (text : str) : str :=
  if len text <=? 2000 then text else firstn 2000 text ++ lit "...".

(** The accepted extensions, as in the uploader's [type=] list. *)
Definition accepted : list str :=
  [lit "xlsx"; lit "xls"; lit "csv"; lit "pdf"; lit "docx"].

(** The tag each accepted extension stands for. *)
Definition extension_tags : list (str * FormatTag) :=
  [(lit "xlsx", Spreadsheet); (lit "xls", Spreadsheet);
   (lit "csv", DelimitedText); (lit "pdf", PortableDocument);
   (lit "docx", WordDocument)].

Definition tag_of (ext : str) : option FormatTag :=
  option_map snd (find (fun entry => str_eqb (fst entry) ext) extension_tags).

(* ------------------------------------------------------------------ *)
(** ** Sample inputs *)

(** A parser handed bytes of another format. *)
Definition wrong_format {A} : result A :=
  Raise (LibraryError (lit "not a file of this format")).

(** Stand-in for the Unicode case tables; the sample names are all ASCII
    and never consult it. *)
Definition no_case_tables : str -> str := fun s => s.

Definition page_of (s : string) : Page := {| extract_text := Some (lit s) |}.

(** Ten pages; the second one has no extractable text. *)
Definition ten_pages : list Page :=
  [page_of "p0 "; {| extract_text := None |}; page_of "p2 "; page_of "p3 ";
   page_of "p4 "; page_of "p5 "; page_of "p6 "; page_of "p7 ";
   page_of "p8 "; page_of "p9"].

Definition ten_page_pdf : UploadedFile :=
  {| name := lit "slides.pdf";
     pdfplumber_open := Ok ten_pages;
     docx_Document := wrong_format;
     pd_read_csv := wrong_format;
     pd_ExcelFile := wrong_format |}.

(** A PDF whose only page extracts to a single space. *)
Definition blank_pdf : UploadedFile :=
  {| name := lit "blank.pdf";
     pdfplumber_open := Ok [page_of " "];
     docx_Document := wrong_format;
     pd_read_csv := wrong_format;
     pd_ExcelFile := wrong_format |}.

Definition hello_paragraphs : list Paragraph :=
  [{| text := lit "Hello" |}; {| text := lit "" |}; {| text := lit "  " |};
   {| text := lit "World" |}].

Definition hello_docx : UploadedFile :=
  {| name := lit "hello.docx";
     pdfplumber_open := wrong_format;
     docx_Document := Ok hello_paragraphs;
     pd_read_csv := wrong_format;
     pd_ExcelFile := wrong_format |}.

(** A table with the two columns A and B. *)
Definition ab_table : DataFrame :=
  {| columns := [lit "A"; lit "B"];
     rows := [[lit "x"; lit "1"]; [lit "y"; lit "2"]] |}.

Definition ab_csv : UploadedFile :=
  {| name := lit "data.csv";
     pdfplumber_open := wrong_format;
     docx_Document := wrong_format;
     pd_read_csv := Ok ab_table;
     pd_ExcelFile := wrong_format |}.

(** A workbook whose name has two dots and a mixed-case extension. *)
Definition mixed_case_workbook : UploadedFile :=
  {| name := lit "Report.v2.XlSx";
     pdfplumber_open := wrong_format;
     docx_Document := wrong_format;
     pd_read_csv := wrong_format;
     pd_ExcelFile := Ok [(lit "Sheet1", ab_table)] |}.

(** A file of a type the uploader does not offer. *)
Definition notes_txt : UploadedFile :=
  {| name := lit "notes.txt";
     pdfplumber_open := wrong_format;
     docx_Document := wrong_format;
     pd_read_csv := wrong_format;
     pd_ExcelFile := wrong_format |}.

(** A session on [file] with a bar chart and the given column selection. *)
Definition bar_session (file : UploadedFile) (cols : list str) : Session :=
  {| uploaded_file := Some file;
     chart_type := Bar_Chart;
     sheet_choice := 0%nat;
     selected_columns := cols |}.

Definition sample_stopwords : list str :=
  [lit "a"; lit "and"; lit "of"; lit "the"; lit "to"].

(** Stand-in for the word-cloud library on the sample texts: like the
    library, it raises ValueError ("We need at least 1 word to plot a word
    cloud, got 0.") on a text in which it finds no word, here a text whose
    white-space separated words are all among [sample_stopwords]. *)
Definition sample_library (wc : WordCloud) (text : str) : option exn :=
  if truthy (drop_stopwords sample_stopwords (tokenize text)) then None
  else Some ValueError.

(** The cloud [generate_wordcloud] returns for a text when the library
    does not raise. *)
Definition cloud_of (text : str) : GeneratedCloud :=
  {| settings := {| width := 800; height := 400;
                    background_color := lit "white"; max_words := 200 |};
     source_text := text |}.

(** A document whose only paragraph is a stop word. *)
Definition the_docx : UploadedFile :=
  {| name := lit "the.docx";
     pdfplumber_open := wrong_format;
     docx_Document := Ok [{| text := lit "the" |}];
     pd_read_csv := wrong_format;
     pd_ExcelFile := wrong_format |}.

(* ------------------------------------------------------------------ *)
(** ** Further notions for the properties of the pipeline *)

(** The exception, if any, with which the parser of a branch fails on a
    file. *)
Definition failure_of {A} (r : result A) : option exn :=
  match r with
  | Ok _ => None
  | Raise e => Some e
  end.

Definition parser_error (tag : FormatTag) (file : UploadedFile)
  : option exn :=
  match tag with
  | Spreadsheet => failure_of (pd_ExcelFile file)
  | DelimitedText => failure_of (pd_read_csv file)
  | PortableDocument => failure_of (pdfplumber_open file)
  | WordDocument => failure_of (docx_Document file)
  end.

(** Two files look the same to the branch of [tag]: same name, same
    outcome of the parser this branch calls. *)
Definition same_for (tag : FormatTag) (f1 f2 : UploadedFile) : Prop :=
  name f1 = name f2
  /\ match tag with
     | Spreadsheet => pd_ExcelFile f1 = pd_ExcelFile f2
     | DelimitedText => pd_read_csv f1 = pd_read_csv f2
     | PortableDocument => pdfplumber_open f1 = pdfplumber_open f2
     | WordDocument => docx_Document f1 = docx_Document f2
     end.

(** The session with another uploaded file. *)
Definition with_file (ui : Session) (file : UploadedFile) : Session :=
  {| uploaded_file := Some file;
     chart_type := chart_type ui;
     sheet_choice := sheet_choice ui;
     selected_columns := selected_columns ui |}.

(** The text of the page an index denotes when indices are counted modulo
    the number of pages, as Python does for the indices from [-n] to
    [n - 1]. *)
Definition page_at (pages : list Page) (i : Z) : str :=
  match nth_error pages (Z.to_nat (i mod len pages)) with
  | Some page => page_text page
  | None => []
  end.

(** The words between the two column names in the title of an Excel
    chart. *)
Definition title_connective (kind : ChartType) : str :=
  match kind with
  | Bar_Chart => lit " by "
  | Pie_Chart => lit " distribution by "
  | Line_Chart => lit " trend by "
  | Scatter_Plot => lit " vs "
  end.

(** A PDF that pdfplumber cannot open. *)
Definition broken_pdf : UploadedFile :=
  {| name := lit "broken.PDF";
     pdfplumber_open := Raise (LibraryError (lit "No /Root object"));
     docx_Document := wrong_format;
     pd_read_csv := wrong_format;
     pd_ExcelFile := wrong_format |}.

(** A table with the three columns C, A, B. *)
Definition cab_table : DataFrame :=
  {| columns := [lit "C"; lit "A"; lit "B"];
     rows := [[lit "z"; lit "x"; lit "1"]] |}.

(** A workbook with two sheets. *)
Definition two_sheet_workbook : UploadedFile :=
  {| name := lit "book.xls";
     pdfplumber_open := wrong_format;
     docx_Document := wrong_format;
     pd_read_csv := wrong_format;
     pd_ExcelFile := Ok [(lit "First", ab_table); (lit "Second", cab_table)] |}.

(** A document whose paragraphs are all blank. *)
Definition blank_docx : UploadedFile :=
  {| name := lit "blank.docx";
     pdfplumber_open := wrong_format;
     docx_Document := Ok [{| text := lit "  " |}; {| text := lit "" |}];
     pd_read_csv := wrong_format;
     pd_ExcelFile := wrong_format |}.

(** The ten-page PDF with two more pages at the end. *)
Definition twelve_page_pdf : UploadedFile :=
  {| name := lit "slides-long.pdf";
     pdfplumber_open := Ok (ten_pages ++ [page_of "p10 "; page_of "p11"]);
     docx_Document := wrong_format;
     pd_read_csv := wrong_format;
     pd_ExcelFile := wrong_format |}.

(** The CSV file [ab_csv] as bytes that pdfplumber can open as well. *)
Definition ab_csv_polyglot : UploadedFile :=
  {| name := lit "data.csv";
     pdfplumber_open := Ok ten_pages;
     docx_Document := wrong_format;
     pd_read_csv := Ok ab_table;
     pd_ExcelFile := wrong_format |}.

(** A session on the two-sheet workbook: the second sheet is picked, for a
    pie chart of B by C. *)
Definition pie_session : Session :=
  {| uploaded_file := Some two_sheet_workbook;
     chart_type := Pie_Chart;
     sheet_choice := 1%nat;
     selected_columns := [lit "C"; lit "B"] |}.

(* ------------------------------------------------------------------ *)
(** ** Strings, indices and ranges *)

Lemma str_eqb_refl (a : str) : str_eqb a a = true.
Proof.
  induction a as [|c a IH]; simpl; [reflexivity|].
  unfold char_eqb. now rewrite N.eqb_refl, IH.
Qed.

Lemma str_eqb_eq (a b : str) : str_eqb a b = true <-> a = b.
Proof.
  split; [|intros ->; apply str_eqb_refl].
  revert b; induction a as [|c a IH]; intros [|d b]; simpl;
    try discriminate; [reflexivity|].
  unfold char_eqb. intros H. apply andb_true_iff in H as [Hc Hs].
  apply N.eqb_eq in Hc. f_equal; auto.
Qed.


Lemma str_in_In (x : str) (l : list str) : str_in x l = true <-> In x l.
Proof.
  induction l as [|y l IH]; simpl.
  - split; [discriminate | tauto].
  - rewrite orb_true_iff, IH, str_eqb_eq. split; intros [H|H]; auto.
Qed.

Lemma text_or_empty_page_text (page : Page) :
  text_or_empty page = page_text page.
Proof.
  unfold text_or_empty, page_text.
  destruct (extract_text page) as [[|c s]|]; reflexivity.
Qed.

Lemma py_getitem_nat {A} (l : list A) (k : nat) (x : A) :
  nth_error l k = Some x -> py_getitem l (Z.of_nat k) = Ok x.
Proof.
  intros H. unfold py_getitem.
  destruct (Z.ltb_spec (Z.of_nat k) 0) as [Hneg|_]; [lia|].
  destruct (Z.ltb_spec (Z.of_nat k) 0) as [Hneg|_]; [lia|].
  now rewrite Nat2Z.id, H.
Qed.

Lemma map_offset_seq (k n : nat) :
  forall j : nat,
    List.map (fun i => Z.of_nat k + Z.of_nat i) (seq j n)
    = List.map Z.of_nat (seq (k + j) n).
Proof.
  induction n as [|n IH]; intros j; simpl; [reflexivity|].
  f_equal; [lia|].
  rewrite IH. now rewrite Nat.add_succ_r.
Qed.

Lemma range_from_nat (a b : Z) :
  0 <= a ->
  range a b = List.map Z.of_nat (seq (Z.to_nat a) (Z.to_nat (b - a))).
Proof.
  intros Ha. unfold range.
  rewrite <- (Nat.add_0_r (Z.to_nat a)), <- map_offset_seq.
  apply map_ext. intros i. lia.
Qed.

Lemma skipn_cons_nth {A} (l : list A) (k : nat) :
  (k < List.length l)%nat ->
  exists x, nth_error l k = Some x /\ skipn k l = x :: skipn (S k) l.
Proof.
  revert l; induction k as [|k IH]; intros [|y l] Hk; simpl in *; try lia.
  - now exists y.
  - destruct (IH l) as [x [Hx Hs]]; [lia|]. exists x. split; [exact Hx|].
    exact Hs.
Qed.

(** The loop over consecutive in-range indices appends the text of the
    pages at these indices, in order. *)
Lemma pdf_loop_seq (pages : list Page) (n : nat) :
  forall (a : nat) (acc : str),
    (n <> 0%nat -> (a + n <= List.length pages)%nat) ->
    pdf_loop pages (List.map Z.of_nat (seq a n)) acc
    = Ok (acc ++ List.concat (List.map page_text (firstn n (skipn a pages)))).
Proof.
  induction n as [|n IH]; intros a acc Hin.
  - simpl. now rewrite app_nil_r.
  - destruct (skipn_cons_nth pages a) as [x [Hx Hs]]; [lia|].
    cbn [seq List.map pdf_loop].
    rewrite (py_getitem_nat _ _ _ Hx). cbn [rbind].
    rewrite IH by lia.
    rewrite Hs. cbn [firstn List.map List.concat].
    rewrite text_or_empty_page_text, app_assoc. reflexivity.
Qed.

(* ------------------------------------------------------------------ *)
(** ** PDF text extraction *)

(** C1. For a PDF of n pages and a window (start_page, end_page) of
    zero-based page indices, [extract_text_from_pdf] returns, without
    raising, the concatenation in page order of the text of the pages
    start_page .. min(end_page, n) - 1, where a page without extractable
    text counts as the empty string; a window reaching beyond the last page
    is clamped to the page count. *)
Theorem extract_text_from_pdf_window
  (file : UploadedFile) (pages : list Page) (start_page end_page : Z) :
  pdfplumber_open file = Ok pages ->
  0 <= start_page ->
  extract_text_from_pdf file start_page end_page
  = Ok (List.concat (List.map page_text
          (pages_between pages start_page
                         (Z.min end_page (len pages))))).
Proof.
  intros Hopen Hstart. unfold extract_text_from_pdf.
  rewrite Hopen. cbn [rbind].
  rewrite range_from_nat by exact Hstart.
  rewrite pdf_loop_seq; [reflexivity|].
  unfold len. lia.
Qed.

(* ------------------------------------------------------------------ *)
(** ** Word document text extraction *)

Lemma has_visible_char_app (a b : str) :
  has_visible_char (a ++ b) = has_visible_char a || has_visible_char b.
Proof. unfold has_visible_char. apply existsb_app. Qed.

Lemma has_visible_char_rev (s : str) :
  has_visible_char (rev s) = has_visible_char s.
Proof.
  induction s as [|c s IH]; [reflexivity|].
  simpl rev. rewrite has_visible_char_app, IH. simpl.
  rewrite orb_false_r. apply orb_comm.
Qed.

Lemma lstrip_visible (s : str) :
  has_visible_char (lstrip s) = has_visible_char s.
Proof.
  induction s as [|c s IH]; [reflexivity|].
  simpl. destruct (isspace c) eqn:Hc; [|simpl; now rewrite Hc].
  exact IH.
Qed.

Lemma truthy_lstrip (s : str) : truthy (lstrip s) = has_visible_char s.
Proof.
  induction s as [|c s IH]; [reflexivity|].
  simpl. destruct (isspace c) eqn:Hc; [exact IH|reflexivity].
Qed.

Lemma truthy_rev {A} (l : list A) : truthy (rev l) = truthy l.
Proof.
  destruct l as [|x l]; [reflexivity|].
  simpl. destruct (rev l); reflexivity.
Qed.

(** A string survives [strip] exactly when it has a character that is not
    white space. *)
Lemma truthy_strip (s : str) : truthy (strip s) = has_visible_char s.
Proof.
  unfold strip, rstrip.
  now rewrite truthy_rev, truthy_lstrip, has_visible_char_rev,
    lstrip_visible.
Qed.

Lemma nonblank_texts_filter (doc : list Paragraph) :
  nonblank_texts doc
  = filter (fun t => truthy (strip t)) (List.map text doc).
Proof.
  induction doc as [|p doc IH]; [reflexivity|].
  simpl. destruct (truthy (strip (text p))); now rewrite IH.
Qed.

(** C2. [extract_text_from_docx] returns the texts of the paragraphs whose
    stripped text is non-empty (those with a character that is not white
    space), in paragraph order, joined by a single space; for the
    paragraphs "Hello", "", "  ", "World" this is "Hello World". *)
Theorem extract_text_from_docx_joined
  (file : UploadedFile) (doc : list Paragraph) :
  docx_Document file = Ok doc ->
  extract_text_from_docx file
  = Ok (join (lit " ")
             (filter (fun t => truthy (strip t)) (List.map text doc)))
  /\ filter (fun t => truthy (strip t)) (List.map text doc)
     = filter has_visible_char (List.map text doc)
  /\ (List.map text doc = [lit "Hello"; lit ""; lit "  "; lit "World"] ->
      extract_text_from_docx file = Ok (lit "Hello World")).
Proof.
  intros Hdoc. unfold extract_text_from_docx. rewrite Hdoc. cbn [rbind].
  rewrite nonblank_texts_filter. split; [reflexivity|]. split.
  - apply filter_ext. intros t. apply truthy_strip.
  - intros ->. reflexivity.
Qed.

(* ------------------------------------------------------------------ *)
(** ** Classification by file name *)

Lemma split_nonempty (sep : char) (s : str) : split sep s <> [].
Proof.
  destruct s as [|c s]; simpl; [discriminate|].
  destruct (char_eqb c sep); [discriminate|].
  destruct (split sep s); discriminate.
Qed.

(** Splitting around an occurrence of the separator. *)
Lemma split_app_sep (sep : char) (a b : str) :
  split sep (a ++ sep :: b) = split sep a ++ split sep b.
Proof.
  induction a as [|c a IH]; simpl.
  - unfold char_eqb. now rewrite N.eqb_refl.
  - destruct (char_eqb c sep); rewrite IH; [reflexivity|].
    destruct (split sep a) as [|piece pieces] eqn:Hs; [|reflexivity].
    now destruct (split_nonempty sep a).
Qed.

Lemma split_without_sep (sep : char) (s : str) :
  ~ In sep s -> split sep s = [s].
Proof.
  induction s as [|c s IH]; intros Hnot; simpl; [reflexivity|].
  destruct (char_eqb c sep) eqn:Hc.
  - apply N.eqb_eq in Hc. subst c. destruct Hnot. now left.
  - rewrite IH; [reflexivity|]. intros Hin. apply Hnot. now right.
Qed.

Lemma py_getitem_last {A} (l : list A) (x : A) :
  py_getitem (l ++ [x]) (-1) = Ok x.
Proof.
  unfold py_getitem, len. rewrite length_app. simpl List.length.
  change (-1 <? 0) with true. cbv iota.
  destruct (Z.ltb_spec (-1 + Z.of_nat (List.length l + 1)) 0) as [H|_];
    [lia|].
  replace (Z.to_nat (-1 + Z.of_nat (List.length l + 1)))
    with (List.length l) by lia.
  rewrite nth_error_app2 by lia. now rewrite Nat.sub_diag.
Qed.

(** [name.split(".")[-1]] never raises: there is always a last piece. *)
Lemma py_getitem_split_last (sep : char) (s : str) :
  exists piece, py_getitem (split sep s) (-1) = Ok piece.
Proof.
  destruct (exists_last (split_nonempty sep s)) as [l [x ->]].
  exists x. apply py_getitem_last.
Qed.

Lemma case_variant_char (c e : char) :
  lower_letter e = true ->
  c = e \/ c = ascii_upper e ->
  is_ascii c = true /\ ascii_lower c = e /\ c <> 46%N.
Proof.
  unfold lower_letter, ascii_upper, is_ascii, ascii_lower.
  intros He Hc. rewrite He in Hc.
  apply andb_true_iff in He as [Hlo Hhi].
  apply N.leb_le in Hlo, Hhi.
  destruct Hc as [-> | ->].
  - split; [apply N.ltb_lt; lia|]. split; [|lia].
    destruct (N.leb_spec 65 e); destruct (N.leb_spec e 90); simpl;
      try reflexivity; lia.
  - split; [apply N.ltb_lt; lia|]. split; [|lia].
    destruct (N.leb_spec 65 (e - 32)); destruct (N.leb_spec (e - 32) 90);
      simpl; lia.
Qed.

Lemma case_variant_lower (v ext : str) :
  forallb lower_letter ext = true ->
  case_variant v ext ->
  forallb is_ascii v = true /\ List.map ascii_lower v = ext /\ ~ In 46%N v.
Proof.
  intros Hext Hv. induction Hv as [|c e v ext Hc Hv IH]; simpl.
  - repeat split. tauto.
  - simpl in Hext. apply andb_true_iff in Hext as [He Hext].
    destruct (case_variant_char c e He Hc) as [Ha [Hl Hd]].
    destruct (IH Hext) as [Hav [Hlv Hdv]].
    rewrite Ha, Hav, Hl, Hlv. repeat split. intros [H|H]; auto.
Qed.

Lemma accepted_lower_letters (ext : str) :
  In ext accepted -> forallb lower_letter ext = true.
Proof.
  unfold accepted. simpl.
  intros [<-|[<-|[<-|[<-|[<-|[]]]]]]; reflexivity.
Qed.

(* ------------------------------------------------------------------ *)
(** ** Running the script *)

Lemma bind_lift_ok {A B} (a : A) (k : A -> script B) :
  bind (lift (Ok a)) k = k a.
Proof. unfold bind, lift. now destruct (k a). Qed.

Lemma bind_lift_raise {A B} (e : exn) (k : A -> script B) :
  bind (lift (Raise e)) k = ([], Raise e).
Proof. reflexivity. Qed.

Lemma bind_call {B} (c : ui_call) (k : unit -> script B) :
  bind (call c) k = (c :: calls (k tt), outcome (k tt)).
Proof. unfold bind, call, calls, outcome. now destruct (k tt). Qed.

Lemma bind_ret {A B} (a : A) (k : A -> script B) : bind (ret a) k = k a.
Proof. unfold bind, ret. now destruct (k a). Qed.

Lemma calls_bind_call {B} (c : ui_call) (k : unit -> script B) :
  calls (bind (call c) k) = c :: calls (k tt).
Proof. now rewrite bind_call. Qed.

Lemma outcome_bind_call {B} (c : ui_call) (k : unit -> script B) :
  outcome (bind (call c) k) = outcome (k tt).
Proof. now rewrite bind_call. Qed.

Lemma bind_ok {A B} (out : list ui_call) (a : A) (k : A -> script B) :
  bind (out, Ok a) k = (out ++ calls (k a), outcome (k a)).
Proof. unfold bind, calls, outcome. now destruct (k a). Qed.

Lemma bind_multiselect {B} (label : str) (options selection : list str)
  (k : list str -> script B) :
  bind (multiselect label options selection) k
  = (st_multiselect label options :: calls (k selection),
     outcome (k selection)).
Proof.
  unfold multiselect, call, ret, bind, calls, outcome.
  now destruct (k selection).
Qed.

Lemma bind_selectbox {B} (label : str) (options : list str) (choice : nat)
  (k : option str -> script B) :
  bind (selectbox label options choice) k
  = (st_selectbox label options :: calls (k (nth_error options choice)),
     outcome (k (nth_error options choice))).
Proof.
  unfold selectbox, call, ret, bind, calls, outcome.
  now destruct (k (nth_error options choice)).
Qed.

Lemma script_eta {A} (m : script A) : (calls m, outcome m) = m.
Proof. now destruct m. Qed.

(* ------------------------------------------------------------------ *)
(** ** Chart building *)

Lemma len_two_or_more {A} (a b : A) (l : list A) :
  (len (a :: b :: l) >=? 2) = true.
Proof. unfold len. simpl List.length. apply Z.geb_le. lia. Qed.

Lemma len_below_two {A} (l : list A) :
  (List.length l < 2)%nat -> (len l >=? 2) = false.
Proof.
  intros H. unfold len. rewrite Z.geb_leb. apply Z.leb_gt. lia.
Qed.

Ltac run_script :=
  repeat (rewrite ?bind_call, ?bind_ret, ?bind_lift_ok;
          cbn [calls outcome fst snd]).

Lemma excel_chart_two (ui : Session) (df : DataFrame) (c0 c1 : str)
  (rest : list str) :
  selected_columns ui = c0 :: c1 :: rest ->
  exists fig,
    excel_chart ui df
    = ([st_multiselect (lit "Select Columns to Visualize") (columns df);
        st_plotly_chart fig], Ok tt)
    /\ figure_x fig = c0 /\ figure_y fig = c1
    /\ figure_kind fig = chart_type ui.
Proof.
  intros Hsel. unfold excel_chart, plotly_chart.
  rewrite Hsel, bind_multiselect, len_two_or_more.
  change (py_getitem (c0 :: c1 :: rest) 0) with (Ok c0).
  change (py_getitem (c0 :: c1 :: rest) 1) with (Ok c1).
  run_script.
  eexists. split; [reflexivity|].
  destruct (chart_type ui); repeat split.
Qed.

Lemma csv_chart_two (ui : Session) (df : DataFrame) (c0 c1 : str)
  (rest : list str) :
  selected_columns ui = c0 :: c1 :: rest ->
  exists fig,
    csv_chart ui df
    = ([st_multiselect (lit "Select Columns to Visualize") (columns df);
        st_plotly_chart fig], Ok tt)
    /\ figure_x fig = c0 /\ figure_y fig = c1
    /\ figure_kind fig = chart_type ui.
Proof.
  intros Hsel. unfold csv_chart, plotly_chart.
  rewrite Hsel, bind_multiselect, len_two_or_more.
  change (py_getitem (c0 :: c1 :: rest) 0) with (Ok c0).
  change (py_getitem (c0 :: c1 :: rest) 1) with (Ok c1).
  run_script.
  eexists. split; [reflexivity|].
  destruct (chart_type ui); repeat split.
Qed.

Lemma excel_chart_below_two (ui : Session) (df : DataFrame) :
  (List.length (selected_columns ui) < 2)%nat ->
  excel_chart ui df
  = ([st_multiselect (lit "Select Columns to Visualize") (columns df)],
     Ok tt).
Proof.
  intros Hsel. unfold excel_chart.
  now rewrite bind_multiselect, len_below_two.
Qed.

Lemma csv_chart_below_two (ui : Session) (df : DataFrame) :
  (List.length (selected_columns ui) < 2)%nat ->
  csv_chart ui df
  = ([st_multiselect (lit "Select Columns to Visualize") (columns df)],
     Ok tt).
Proof.
  intros Hsel. unfold csv_chart.
  now rewrite bind_multiselect, len_below_two.
Qed.

Lemma charts_of_app (a b : list ui_call) :
  charts_of (a ++ b) = charts_of a ++ charts_of b.
Proof. unfold charts_of. apply flat_map_app. Qed.

Lemma calls_bind {A B} (m : script A) (k : A -> script B) :
  calls (bind m k)
  = match outcome m with
    | Ok a => calls m ++ calls (k a)
    | Raise _ => calls m
    end.
Proof.
  destruct m as [out [a|e]]; unfold bind, calls, outcome; simpl;
    [now destruct (k a) | reflexivity].
Qed.

Lemma show_text_no_chart (lib : WordCloud -> str -> option exn)
  (text heading : str) :
  charts_of (calls (show_text lib text heading)) = [].
Proof.
  unfold show_text, write, subheader, pyplot_imshow.
  rewrite bind_call. cbn [calls fst].
  destruct (truthy text); [|reflexivity].
  destruct (generate_wordcloud lib text) as [wc|e]; [|reflexivity].
  now rewrite bind_lift_ok, !bind_call.
Qed.

(** The CSV branch draws what its chart step draws. *)
Lemma csv_handling_charts (ui : Session) (file : UploadedFile) :
  charts_of (calls (csv_handling ui file))
  = match read_csv file with
    | Ok df => charts_of (calls (csv_chart ui df))
    | Raise _ => []
    end.
Proof.
  unfold csv_handling. destruct (read_csv file) as [df|e]; [|reflexivity].
  unfold subheader, dataframe. now rewrite bind_lift_ok, !bind_call.
Qed.

(** The Excel branch draws what its chart step draws on the sheet read. *)
Lemma excel_handling_charts (ui : Session) (file : UploadedFile) :
  charts_of (calls (excel_handling ui file)) = []
  \/ exists df, charts_of (calls (excel_handling ui file))
                = charts_of (calls (excel_chart ui df)).
Proof.
  unfold excel_handling.
  destruct (get_excel_sheet_names file) as [sheet_names|e]; [|now left].
  rewrite bind_lift_ok, bind_selectbox. cbn [calls fst charts_of flat_map].
  destruct (nth_error sheet_names (sheet_choice ui)) as [sheet|].
  - destruct (read_excel file sheet) as [df|e]; [|now left].
    right. exists df. unfold subheader, dataframe.
    now rewrite bind_lift_ok, !bind_call.
  - left. destruct (pd_ExcelFile file) as [xls|e]; [|reflexivity].
    unfold subheader. now rewrite bind_lift_ok, bind_call.
Qed.

(** C10. When two or more columns are selected, the chart step of either
    tabular branch builds one figure, of the chosen kind, whose x axis is
    the first selected column and whose y axis is the second, and raises
    nothing; the columns selected after the second have no effect on what
    the step does. *)
Theorem chart_uses_first_two_columns
  (ui : Session) (df : DataFrame) (c0 c1 : str) (rest : list str) :
  selected_columns ui = c0 :: c1 :: rest ->
  (exists fig,
      charts_of (calls (excel_chart ui df)) = [fig]
      /\ figure_x fig = c0 /\ figure_y fig = c1
      /\ figure_kind fig = chart_type ui)
  /\ (exists fig,
      charts_of (calls (csv_chart ui df)) = [fig]
      /\ figure_x fig = c0 /\ figure_y fig = c1
      /\ figure_kind fig = chart_type ui)
  /\ outcome (excel_chart ui df) = Ok tt
  /\ outcome (csv_chart ui df) = Ok tt
  /\ excel_chart ui df = excel_chart (with_columns ui [c0; c1]) df
  /\ csv_chart ui df = csv_chart (with_columns ui [c0; c1]) df.
Proof.
  intros Hsel.
  destruct (excel_chart_two ui df c0 c1 rest Hsel) as [fe [He [Hx [Hy Hk]]]].
  destruct (csv_chart_two ui df c0 c1 rest Hsel) as [fc [Hc [Hx' [Hy' Hk']]]].
  split; [exists fe; rewrite He; auto|].
  split; [exists fc; rewrite Hc; auto|].
  split; [now rewrite He|]. split; [now rewrite Hc|].
  unfold excel_chart, csv_chart, with_columns. cbn [selected_columns chart_type].
  rewrite Hsel, !bind_multiselect, !len_two_or_more.
  split; reflexivity.
Qed.

(** C6 (as the code has it). Building a bar chart from a two-column table
    with columns (A, B) and reading back its x and y columns returns the
    two columns in the order in which the user selected them: (A, B) when
    A was selected first, (B, A) when B was selected first. *)
Theorem bar_chart_axes_follow_selection
  (ui : Session) (df : DataFrame) (a b : str) :
  columns df = [a; b] ->
  chart_type ui = Bar_Chart ->
  (selected_columns ui = [a; b] ->
   axes_of (calls (excel_chart ui df)) = [(a, b)]
   /\ axes_of (calls (csv_chart ui df)) = [(a, b)])
  /\ (selected_columns ui = [b; a] ->
      axes_of (calls (excel_chart ui df)) = [(b, a)]
      /\ axes_of (calls (csv_chart ui df)) = [(b, a)]).
Proof.
  intros _ Hkind.
  split; intros Hsel; unfold excel_chart, csv_chart, plotly_chart;
    rewrite Hsel, Hkind, !bind_multiselect, !len_two_or_more;
    split; reflexivity.
Qed.

(* ------------------------------------------------------------------ *)
(** ** Text preview and word cloud *)

Lemma preview_short (text : str) : len text <= 2000 -> preview text = text.
Proof.
  intros H. unfold preview. rewrite Z.gtb_ltb.
  destruct (Z.ltb_spec 2000 (len text)); [lia|reflexivity].
Qed.

Lemma preview_long (text : str) :
  2000 < len text ->
  preview text = firstn 2000 text ++ lit "...".
Proof.
  intros H. unfold preview. rewrite Z.gtb_ltb.
  destruct (Z.ltb_spec 2000 (len text)); [|lia].
  unfold slice_to. change (2000 <? 0) with false. cbv iota.
  replace (Z.to_nat 2000) with 2000%nat by lia. reflexivity.
Qed.

Lemma preview_excerpt (text : str) : preview text = excerpt text.
Proof.
  unfold excerpt. destruct (Z.leb_spec (len text) 2000) as [H|H].
  - now apply preview_short.
  - now apply preview_long.
Qed.

Lemma classify_unsupported (file_type : str) :
  ~ In file_type accepted -> classify file_type = None.
Proof.
  intros Hnot. unfold classify.
  destruct (str_in file_type [lit "xlsx"; lit "xls"]) eqn:Hx.
  { apply str_in_In in Hx. destruct Hnot. unfold accepted.
    simpl in *. tauto. }
  destruct (str_eqb file_type (lit "csv")) eqn:Hc.
  { apply str_eqb_eq in Hc. destruct Hnot. unfold accepted. simpl. auto. }
  destruct (str_eqb file_type (lit "pdf")) eqn:Hp.
  { apply str_eqb_eq in Hp. destruct Hnot. unfold accepted. simpl. auto. }
  destruct (str_eqb file_type (lit "docx")) eqn:Hd; [|reflexivity].
  apply str_eqb_eq in Hd. destruct Hnot. unfold accepted. simpl. auto 6.
Qed.

Section TextBranch.

Variable wordcloud_raises : WordCloud -> str -> option exn.

Lemma generate_wordcloud_ok (text : str) (wc : GeneratedCloud) :
  generate_wordcloud wordcloud_raises text = Ok wc ->
  wc = {| settings := {| width := 800; height := 400;
                         background_color := lit "white";
                         max_words := 200 |};
          source_text := text |}.
Proof.
  unfold generate_wordcloud, generate.
  destruct (wordcloud_raises _ text) as [e|]; cbn [rbind]; [discriminate|].
  now intros [= <-].
Qed.

(** The calls and the outcome of the text step: the cloud is generated from
    the text as extracted, and a failure of the generation ends the step
    before the heading of the cloud. *)
Lemma show_text_eq (text heading : str) :
  show_text wordcloud_raises text heading
  = (st_write (preview text)
       :: (if truthy text
           then match generate_wordcloud wordcloud_raises text with
                | Ok wc => [st_subheader heading; st_pyplot wc]
                | Raise _ => []
                end
           else []),
     if truthy text
     then match generate_wordcloud wordcloud_raises text with
          | Ok _ => Ok tt
          | Raise e => Raise e
          end
     else Ok tt).
Proof.
  unfold show_text, write, subheader, pyplot_imshow.
  rewrite bind_call.
  destruct (truthy text); [|reflexivity].
  destruct (generate_wordcloud wordcloud_raises text) as [wc|e];
    [|reflexivity].
  now rewrite bind_lift_ok, !bind_call.
Qed.

Lemma show_text_empty (heading : str) :
  show_text wordcloud_raises [] heading = ([st_write []], Ok tt).
Proof. reflexivity. Qed.

Lemma pdf_handling_show_text (file : UploadedFile) (text : str) :
  extract_text_from_pdf file 0 5 = Ok text ->
  pdf_handling wordcloud_raises file
  = (st_subheader (bookmark_tabs ++ lit " Extracted Text from PDF")
       :: calls (show_text wordcloud_raises text
                   (cloud ++ lit " Word Cloud from PDF")),
     outcome (show_text wordcloud_raises text
                (cloud ++ lit " Word Cloud from PDF"))).
Proof.
  intros Htext. unfold pdf_handling, subheader.
  now rewrite Htext, bind_call, bind_lift_ok.
Qed.

Lemma docx_handling_show_text (file : UploadedFile) (text : str) :
  extract_text_from_docx file = Ok text ->
  docx_handling wordcloud_raises file
  = (st_subheader
       (bookmark_tabs ++ lit " Extracted Text from Word Document")
       :: calls (show_text wordcloud_raises text
                   (cloud ++ lit " Word Cloud from Word Document")),
     outcome (show_text wordcloud_raises text
                (cloud ++ lit " Word Cloud from Word Document"))).
Proof.
  intros Htext. unfold docx_handling, subheader.
  now rewrite Htext, bind_call, bind_lift_ok.
Qed.

Lemma show_text_written (text heading : str) :
  written_of (calls (show_text wordcloud_raises text heading))
  = [preview text].
Proof.
  rewrite show_text_eq. cbn [calls fst].
  destruct (truthy text); [|reflexivity].
  now destruct (generate_wordcloud wordcloud_raises text).
Qed.

Lemma show_text_clouds (text heading : str) :
  clouds_of (calls (show_text wordcloud_raises text heading))
  = if truthy text
    then match generate_wordcloud wordcloud_raises text with
         | Ok wc => [wc]
         | Raise _ => []
         end
    else [].
Proof.
  rewrite show_text_eq. cbn [calls fst].
  destruct (truthy text); [|reflexivity].
  now destruct (generate_wordcloud wordcloud_raises text).
Qed.

Lemma show_text_outcome (text heading : str) :
  outcome (show_text wordcloud_raises text heading)
  = if truthy text
    then match generate_wordcloud wordcloud_raises text with
         | Ok _ => Ok tt
         | Raise e => Raise e
         end
    else Ok tt.
Proof. now rewrite show_text_eq. Qed.

(** The run of a text branch on a file whose text extracts to [text]. *)
Lemma text_branch_run (file : UploadedFile) (text : str)
  (run : script unit) :
  (extract_text_from_pdf file 0 5 = Ok text
   /\ run = pdf_handling wordcloud_raises file)
  \/ (extract_text_from_docx file = Ok text
      /\ run = docx_handling wordcloud_raises file) ->
  exists h1 h2,
    run = (st_subheader h1
             :: calls (show_text wordcloud_raises text h2),
           outcome (show_text wordcloud_raises text h2)).
Proof.
  intros [[Htext ->]|[Htext ->]].
  - rewrite (pdf_handling_show_text file text Htext). now do 2 eexists.
  - rewrite (docx_handling_show_text file text Htext). now do 2 eexists.
Qed.

(** C5. In the PDF and in the Word branch the text shown on the page is
    the extracted text itself when it has at most 2000 characters, and
    otherwise its first 2000 characters followed by "..."; the word cloud
    is generated from the whole extracted text: every cloud shown has the
    whole text as its source, and for a non-empty text the cloud shown and
    the outcome of the branch are those of [generate_wordcloud] on the
    whole text. *)
Theorem preview_is_presentation_only
  (file : UploadedFile) (text : str) (run : script unit) :
  (extract_text_from_pdf file 0 5 = Ok text
   /\ run = pdf_handling wordcloud_raises file)
  \/ (extract_text_from_docx file = Ok text
      /\ run = docx_handling wordcloud_raises file) ->
  written_of (calls run) = [excerpt text]
  /\ (len text <= 2000 -> excerpt text = text)
  /\ (2000 < len text -> excerpt text = firstn 2000 text ++ lit "...")
  /\ (forall wc, In wc (clouds_of (calls run)) -> source_text wc = text)
  /\ (text <> [] ->
      clouds_of (calls run)
      = match generate_wordcloud wordcloud_raises text with
        | Ok wc => [wc]
        | Raise _ => []
        end
      /\ outcome run
         = match generate_wordcloud wordcloud_raises text with
           | Ok _ => Ok tt
           | Raise e => Raise e
           end).
Proof.
  intros Hrun.
  destruct (text_branch_run file text run Hrun) as [h1 [h2 ->]].
  cbn [calls outcome fst snd].
  change (written_of (st_subheader h1
                        :: calls (show_text wordcloud_raises text h2)))
    with (written_of (calls (show_text wordcloud_raises text h2))).
  change (clouds_of (st_subheader h1
                       :: calls (show_text wordcloud_raises text h2)))
    with (clouds_of (calls (show_text wordcloud_raises text h2))).
  rewrite show_text_written, show_text_clouds, show_text_outcome,
    preview_excerpt.
  split; [reflexivity|].
  split; [intros H; rewrite <- preview_excerpt; now apply preview_short|].
  split; [intros H; rewrite <- preview_excerpt; now apply preview_long|].
  split.
  - destruct (truthy text); [|intros wc []].
    destruct (generate_wordcloud wordcloud_raises text) as [wc'|e] eqn:Hgen;
      [|intros wc []].
    intros wc [<-|[]]. now rewrite (generate_wordcloud_ok text wc' Hgen).
  - intros Htext. destruct text; [congruence|]. split; reflexivity.
Qed.

(** C4 (what the code does where it fails to do as stated). A text that
    is not empty but is empty after trimming passes the guard of the
    branch: the word cloud is requested for it, and when the library
    raises on it, as it does on a text without any word, the branch shows
    the heading and the text and ends with that exception instead of
    skipping the word cloud. *)
Theorem blank_text_is_not_skipped
  (file : UploadedFile) (text : str) (run : script unit) (e : exn) :
  (extract_text_from_pdf file 0 5 = Ok text
   /\ run = pdf_handling wordcloud_raises file)
  \/ (extract_text_from_docx file = Ok text
      /\ run = docx_handling wordcloud_raises file) ->
  text <> [] ->
  strip text = [] ->
  generate_wordcloud wordcloud_raises text = Raise e ->
  outcome run = Raise e
  /\ written_of (calls run) = [excerpt text]
  /\ clouds_of (calls run) = []
  /\ List.length (calls run) = 2%nat.
Proof.
  intros Hrun Htext _ Hgen.
  destruct (text_branch_run file text run Hrun) as [h1 [h2 ->]].
  rewrite show_text_eq, Hgen, preview_excerpt. cbn [calls outcome fst snd].
  destruct text; [congruence|]. cbn [truthy]. repeat split.
Qed.

End TextBranch.

(* ------------------------------------------------------------------ *)
(** ** The dispatch on the file type *)

Section Properties.

Variable unicode_lower : str -> str.
Variable wordcloud_raises : WordCloud -> str -> option exn.

(** The main logic runs the branch [classify] names, and nothing when it
    names none. *)
Lemma main_classify (ui : Session) (file : UploadedFile) (file_type : str) :
  uploaded_file ui = Some file ->
  file_type_of unicode_lower file = Ok file_type ->
  main unicode_lower wordcloud_raises ui = match classify file_type with
            | Some tag => handle wordcloud_raises ui file tag
            | None => ret tt
            end.
Proof.
  intros Hfile Htype. unfold main. rewrite Hfile, Htype.
  rewrite bind_lift_ok. unfold classify.
  destruct (str_in file_type [lit "xlsx"; lit "xls"]); [reflexivity|].
  destruct (str_eqb file_type (lit "csv")); [reflexivity|].
  destruct (str_eqb file_type (lit "pdf")); [reflexivity|].
  destruct (str_eqb file_type (lit "docx")); reflexivity.
Qed.

(** The file type of a name ending in a dot and a case variant of an
    accepted extension is that extension, in lower case. *)
Lemma file_type_of_variant (file : UploadedFile) (stem v ext : str) :
  In ext accepted ->
  case_variant v ext ->
  name file = stem ++ lit "." ++ v ->
  file_type_of unicode_lower file = Ok ext.
Proof.
  intros Hext Hv Hname.
  destruct (case_variant_lower v ext (accepted_lower_letters ext Hext) Hv)
    as [Hascii [Hlower Hdot]].
  unfold file_type_of. rewrite Hname.
  change (lit "." ++ v) with (46%N :: v).
  rewrite split_app_sep, (split_without_sep _ v Hdot), py_getitem_last.
  cbn [rbind]. unfold lower. now rewrite Hascii, Hlower.
Qed.

(** C3. For a file name ending in a dot and any case variant of one of
    xlsx, xls, csv, pdf, docx, the file type computed from the name is the
    extension in lower case, whatever the case of the letters; the dispatch
    selects exactly one branch, the one of the extension's tag, and runs it;
    xlsx and xls both select the spreadsheet branch. *)
Theorem classify_by_extension
  (file : UploadedFile) (stem v ext : str) :
  In ext accepted ->
  case_variant v ext ->
  name file = stem ++ lit "." ++ v ->
  exists tag,
    tag_of ext = Some tag
    /\ file_type_of unicode_lower file = Ok ext
    /\ classify ext = Some tag
    /\ (forall ui, uploaded_file ui = Some file ->
                   main unicode_lower wordcloud_raises ui = handle wordcloud_raises ui file tag)
    /\ (ext = lit "xlsx" \/ ext = lit "xls" -> tag = Spreadsheet).
Proof.
  intros Hext Hv Hname.
  pose proof (file_type_of_variant file stem v ext Hext Hv Hname) as Htype.
  assert (Htag : exists tag, tag_of ext = Some tag /\ classify ext = Some tag
            /\ (ext = lit "xlsx" \/ ext = lit "xls" -> tag = Spreadsheet)).
  { unfold accepted in Hext. simpl in Hext.
    destruct Hext as [<-|[<-|[<-|[<-|[<-|[]]]]]];
      eexists; (split; [reflexivity|]); (split; [reflexivity|]);
      intros [H|H]; solve [reflexivity | discriminate H]. }
  destruct Htag as [tag [Htag [Hclass Hsheet]]].
  exists tag. repeat split; auto.
  intros ui Hfile. rewrite (main_classify ui file ext Hfile Htype).
  now rewrite Hclass.
Qed.

(** C7. When fewer than two columns are selected, the chart step of either
    tabular branch builds no figure and raises nothing: it only shows the
    column picker and returns; the whole run of the main logic then hands
    no figure to the page. *)
Theorem no_chart_below_two_columns (ui : Session) :
  (List.length (selected_columns ui) < 2)%nat ->
  (forall df,
      charts_of (calls (excel_chart ui df)) = []
      /\ outcome (excel_chart ui df) = Ok tt
      /\ charts_of (calls (csv_chart ui df)) = []
      /\ outcome (csv_chart ui df) = Ok tt)
  /\ charts_of (calls (main unicode_lower wordcloud_raises ui)) = [].
Proof.
  intros Hsel. split.
  - intros df. rewrite excel_chart_below_two, csv_chart_below_two by exact Hsel.
    repeat split.
  - unfold main. destruct (uploaded_file ui) as [file|]; [|reflexivity].
    destruct (file_type_of unicode_lower file) as [file_type|e];
      [|reflexivity].
    rewrite bind_lift_ok.
    destruct (str_in file_type [lit "xlsx"; lit "xls"]).
    { destruct (excel_handling_charts ui file) as [H|[df H]];
        rewrite H; [reflexivity|].
      now rewrite excel_chart_below_two. }
    destruct (str_eqb file_type (lit "csv")).
    { rewrite csv_handling_charts. destruct (read_csv file); [|reflexivity].
      now rewrite csv_chart_below_two. }
    destruct (str_eqb file_type (lit "pdf")).
    { unfold pdf_handling, subheader. rewrite bind_call. cbn [calls fst].
      destruct (extract_text_from_pdf file 0 5) as [text|e]; [|reflexivity].
      rewrite bind_lift_ok. apply show_text_no_chart. }
    destruct (str_eqb file_type (lit "docx")); [|reflexivity].
    unfold docx_handling, subheader. rewrite bind_call. cbn [calls fst].
    destruct (extract_text_from_docx file) as [text|e]; [|reflexivity].
    rewrite bind_lift_ok. apply show_text_no_chart.
Qed.

(** C9 (as the code has it). The file type of an uploaded file is always
    computed without error; when it is outside xlsx, xls, csv, pdf, docx,
    no branch of the dispatch is taken: the main logic makes no call on
    the page and raises no error. *)
Theorem unsupported_extension_is_noop (ui : Session) (file : UploadedFile) :
  uploaded_file ui = Some file ->
  exists file_type,
    file_type_of unicode_lower file = Ok file_type
    /\ (~ In file_type accepted ->
        calls (main unicode_lower wordcloud_raises ui) = []
        /\ outcome (main unicode_lower wordcloud_raises ui) = Ok tt).
Proof.
  intros Hfile.
  destruct (py_getitem_split_last 46%N (name file)) as [piece Hpiece].
  exists (lower unicode_lower piece). split.
  - unfold file_type_of. now rewrite Hpiece.
  - intros Hnot.
    rewrite (main_classify ui file (lower unicode_lower piece) Hfile).
    + rewrite (classify_unsupported _ Hnot). split; reflexivity.
    + unfold file_type_of. now rewrite Hpiece.
Qed.

End Properties.

(* ------------------------------------------------------------------ *)
(** ** Word counts and ranking *)

Lemma tokenize_from_nonempty (s cur : str) (w : str) :
  In w (tokenize_from s cur) -> s <> [] \/ cur <> [].
Proof.
  destruct s as [|c s]; [|left; discriminate].
  destruct cur as [|d cur]; simpl; [tauto|right; discriminate].
Qed.

Lemma tokenize_nonempty (s w : str) : In w (tokenize s) -> s <> [].
Proof.
  intros H. destruct (tokenize_from_nonempty s [] w H); congruence.
Qed.

















Section RenderingProperties.

Variable STOPWORDS : list str.


Variable wordcloud_raises : WordCloud -> str -> option exn.


End RenderingProperties.

(* ------------------------------------------------------------------ *)
(** ** The properties on the sample inputs *)

Example ten_page_pdf_first_window :
  extract_text_from_pdf ten_page_pdf 0 5 = Ok (lit "p0 p2 p3 p4 ").
Proof. reflexivity. Qed.

Example ten_page_pdf_clamped_window :
  extract_text_from_pdf ten_page_pdf 8 20 = Ok (lit "p8 p9").
Proof. reflexivity. Qed.

Example ten_page_pdf_window_past_the_end :
  extract_text_from_pdf ten_page_pdf 12 20 = Ok [].
Proof. reflexivity. Qed.

(** A negative start is not a zero-based page index: Python counts it from
    the end of the page list, and raises when it reaches before the first
    page. *)
Example ten_page_pdf_negative_start :
  extract_text_from_pdf ten_page_pdf (-1) 1 = Ok (lit "p9p0 ")
  /\ extract_text_from_pdf ten_page_pdf (-11) 1 = Raise IndexError.
Proof. split; reflexivity. Qed.

Lemma extract_text_from_pdf_window_witness :
  pdfplumber_open ten_page_pdf = Ok ten_pages
  /\ 0 <= 8
  /\ extract_text_from_pdf ten_page_pdf 8 20
     = Ok (List.concat (List.map page_text
             (pages_between ten_pages 8 (Z.min 20 (len ten_pages))))).
Proof.
  split; [reflexivity|]. split; [lia|].
  apply (extract_text_from_pdf_window ten_page_pdf ten_pages 8 20);
    [reflexivity | lia].
Defined.

Lemma extract_text_from_docx_joined_witness :
  docx_Document hello_docx = Ok hello_paragraphs
  /\ extract_text_from_docx hello_docx = Ok (lit "Hello World").
Proof.
  split; [reflexivity|].
  apply (extract_text_from_docx_joined hello_docx hello_paragraphs eq_refl).
  reflexivity.
Defined.

Lemma classify_by_extension_witness :
  In (lit "xlsx") accepted
  /\ case_variant (lit "XlSx") (lit "xlsx")
  /\ name mixed_case_workbook = lit "Report.v2" ++ lit "." ++ lit "XlSx"
  /\ exists tag,
      tag_of (lit "xlsx") = Some tag
      /\ file_type_of no_case_tables mixed_case_workbook = Ok (lit "xlsx")
      /\ classify (lit "xlsx") = Some tag
      /\ (forall ui, uploaded_file ui = Some mixed_case_workbook ->
            main no_case_tables sample_library ui
            = handle sample_library ui mixed_case_workbook tag)
      /\ (lit "xlsx" = lit "xlsx" \/ lit "xlsx" = lit "xls" ->
          tag = Spreadsheet).
Proof.
  assert (Hext : In (lit "xlsx") accepted) by (simpl; auto).
  assert (Hvar : case_variant (lit "XlSx") (lit "xlsx")).
  { repeat constructor; solve [now left | now right]. }
  split; [exact Hext|]. split; [exact Hvar|]. split; [reflexivity|].
  apply (classify_by_extension no_case_tables sample_library
           mixed_case_workbook
           (lit "Report.v2") (lit "XlSx") (lit "xlsx") Hext Hvar).
  reflexivity.
Defined.

Example mixed_case_workbook_runs_the_spreadsheet_branch :
  calls (main no_case_tables sample_library (bar_session mixed_case_workbook
                                [lit "B"; lit "A"]))
  = [st_selectbox (lit "Choose a Sheet") [lit "Sheet1"];
     st_subheader (bookmark_tabs ++ lit " Data Preview: Sheet1");
     st_dataframe ab_table;
     st_multiselect (lit "Select Columns to Visualize") [lit "A"; lit "B"];
     st_plotly_chart (px_bar ab_table (lit "B") (lit "A")
                        (Some (lit "A by B")))].
Proof. reflexivity. Qed.

Lemma preview_is_presentation_only_witness :
  extract_text_from_pdf ten_page_pdf 0 5 = Ok (lit "p0 p2 p3 p4 ")
  /\ written_of (calls (pdf_handling sample_library ten_page_pdf))
     = [excerpt (lit "p0 p2 p3 p4 ")]
  /\ forall wc,
      In wc (clouds_of (calls (pdf_handling sample_library ten_page_pdf))) ->
      source_text wc = lit "p0 p2 p3 p4 ".
Proof.
  split; [reflexivity|].
  destruct (preview_is_presentation_only sample_library ten_page_pdf
              (lit "p0 p2 p3 p4 ") (pdf_handling sample_library ten_page_pdf))
    as [Hwritten [_ [_ [Hsource _]]]].
  - left. split; reflexivity.
  - split; [exact Hwritten | exact Hsource].
Defined.

Example ten_page_pdf_run :
  pdf_handling sample_library ten_page_pdf
  = ([st_subheader (bookmark_tabs ++ lit " Extracted Text from PDF");
      st_write (lit "p0 p2 p3 p4 ");
      st_subheader (cloud ++ lit " Word Cloud from PDF");
      st_pyplot (cloud_of (lit "p0 p2 p3 p4 "))], Ok tt).
Proof. reflexivity. Qed.

(** A text of 2001 characters is shown cut to 2000 and an ellipsis, and
    still reaches the word cloud whole. *)
Example long_text_is_cut_only_on_the_page :
  let long_text := List.repeat 97%N 2001 in
  show_text sample_library long_text (lit "Word Cloud")
  = ([st_write (List.repeat 97%N 2000 ++ lit "...");
      st_subheader (lit "Word Cloud");
      st_pyplot (cloud_of long_text)], Ok tt).
Proof. vm_compute. reflexivity. Qed.

Lemma no_chart_below_two_columns_witness :
  (List.length (selected_columns (bar_session ab_csv [lit "A"])) < 2)%nat
  /\ charts_of (calls (main no_case_tables sample_library (bar_session ab_csv [lit "A"])))
     = []
  /\ outcome (csv_chart (bar_session ab_csv [lit "A"]) ab_table) = Ok tt.
Proof.
  assert (Hsel : (List.length (selected_columns
                                 (bar_session ab_csv [lit "A"])) < 2)%nat)
    by (simpl; lia).
  split; [exact Hsel|].
  destruct (no_chart_below_two_columns no_case_tables sample_library
              (bar_session ab_csv [lit "A"]) Hsel) as [Hstep Hmain].
  split; [exact Hmain|]. apply (Hstep ab_table).
Defined.

Lemma chart_uses_first_two_columns_witness :
  selected_columns (bar_session ab_csv [lit "B"; lit "A"; lit "C"])
  = lit "B" :: lit "A" :: [lit "C"]
  /\ csv_chart (bar_session ab_csv [lit "B"; lit "A"; lit "C"]) ab_table
     = csv_chart (with_columns
                    (bar_session ab_csv [lit "B"; lit "A"; lit "C"])
                    [lit "B"; lit "A"]) ab_table.
Proof.
  split; [reflexivity|].
  apply (chart_uses_first_two_columns
           (bar_session ab_csv [lit "B"; lit "A"; lit "C"]) ab_table
           (lit "B") (lit "A") [lit "C"]).
  reflexivity.
Defined.

Lemma bar_chart_axes_follow_selection_witness :
  columns ab_table = [lit "A"; lit "B"]
  /\ axes_of (calls (csv_chart (bar_session ab_csv [lit "A"; lit "B"])
                       ab_table))
     = [(lit "A", lit "B")].
Proof.
  split; [reflexivity|].
  apply (bar_chart_axes_follow_selection
           (bar_session ab_csv [lit "A"; lit "B"]) ab_table
           (lit "A") (lit "B")); reflexivity.
Defined.

(** C6 fails as stated: with B selected before A, the bar chart of the
    table with columns (A, B) has B on the x axis and A on the y axis. *)
Lemma bar_chart_axes_depend_on_selection_order :
  columns ab_table = [lit "A"; lit "B"]
  /\ axes_of (calls (csv_chart (bar_session ab_csv [lit "B"; lit "A"])
                       ab_table))
     = [(lit "B", lit "A")]
  /\ axes_of (calls (excel_chart
                       (bar_session mixed_case_workbook [lit "B"; lit "A"])
                       ab_table))
     = [(lit "B", lit "A")]
  /\ axes_of (calls (csv_chart (bar_session ab_csv [lit "B"; lit "A"])
                       ab_table))
     <> [(lit "A", lit "B")].
Proof.
  split; [reflexivity|]. split; [reflexivity|]. split; [reflexivity|].
  discriminate.
Qed.

Lemma unsupported_extension_is_noop_witness :
  uploaded_file (bar_session notes_txt []) = Some notes_txt
  /\ exists file_type,
      file_type_of no_case_tables notes_txt = Ok file_type
      /\ (~ In file_type accepted ->
          calls (main no_case_tables sample_library (bar_session notes_txt [])) = []
          /\ outcome (main no_case_tables sample_library (bar_session notes_txt []))
             = Ok tt).
Proof.
  split; [reflexivity|].
  apply (unsupported_extension_is_noop no_case_tables sample_library
           (bar_session notes_txt []) notes_txt).
  reflexivity.
Defined.

(** C9 fails as stated: a file named notes.txt has the file type txt,
    which is not accepted, and the main logic ends normally without a
    single call on the page: nothing is rejected, no error is raised. *)
Lemma unsupported_extension_is_not_rejected :
  file_type_of no_case_tables notes_txt = Ok (lit "txt")
  /\ ~ In (lit "txt") accepted
  /\ main no_case_tables sample_library (bar_session notes_txt []) = ([], Ok tt)
  /\ forall e, outcome (main no_case_tables sample_library (bar_session notes_txt []))
               <> Raise e.
Proof.
  split; [reflexivity|]. split.
  - simpl. intros [H|[H|[H|[H|[H|[]]]]]]; discriminate H.
  - split; [reflexivity|]. intros e. discriminate.
Qed.

Lemma blank_text_is_not_skipped_witness :
  extract_text_from_pdf blank_pdf 0 5 = Ok (lit " ")
  /\ lit " " <> []
  /\ strip (lit " ") = []
  /\ generate_wordcloud sample_library (lit " ") = Raise ValueError
  /\ outcome (pdf_handling sample_library blank_pdf) = Raise ValueError
  /\ written_of (calls (pdf_handling sample_library blank_pdf))
     = [excerpt (lit " ")]
  /\ clouds_of (calls (pdf_handling sample_library blank_pdf)) = []
  /\ List.length (calls (pdf_handling sample_library blank_pdf)) = 2%nat.
Proof.
  split; [reflexivity|]. split; [discriminate|]. split; [reflexivity|].
  split; [reflexivity|].
  apply (blank_text_is_not_skipped sample_library blank_pdf (lit " ")
           (pdf_handling sample_library blank_pdf) ValueError);
    [left; split; reflexivity | discriminate | reflexivity | reflexivity].
Defined.

Example blank_pdf_run :
  pdf_handling sample_library blank_pdf
  = ([st_subheader (bookmark_tabs ++ lit " Extracted Text from PDF");
      st_write (lit " ")], Raise ValueError).
Proof. reflexivity. Qed.



(* ------------------------------------------------------------------ *)
(** ** More on the page window of the PDF extraction *)

Lemma range_empty (a b : Z) : b <= a -> range a b = [].
Proof.
  intros H. unfold range. replace (Z.to_nat (b - a)) with 0%nat by lia.
  reflexivity.
Qed.

Lemma range_first (a b : Z) : a < b -> exists rest, range a b = a :: rest.
Proof.
  intros H. unfold range.
  destruct (Z.to_nat (b - a)) as [|k] eqn:Hk; [lia|].
  simpl. eexists. f_equal. lia.
Qed.

Lemma range_bounds (a b : Z) : Forall (fun i => a <= i < b) (range a b).
Proof.
  unfold range. apply Forall_forall. intros i Hi.
  apply in_map_iff in Hi as [k [<- Hk]]. apply in_seq in Hk. lia.
Qed.

Lemma pdf_loop_window (pages : list Page) (a b : Z) (acc : str) :
  0 <= a ->
  b <= len pages ->
  pdf_loop pages (range a b) acc
  = Ok (acc ++ List.concat (List.map page_text (pages_between pages a b))).
Proof.
  intros Ha Hb. rewrite range_from_nat by exact Ha.
  rewrite pdf_loop_seq; [reflexivity|]. unfold len in Hb. lia.
Qed.

(** An index from [-n] to [n - 1] denotes the element at the index taken
    modulo [n]. *)
Lemma py_getitem_mod {A} (l : list A) (i : Z) :
  - len l <= i < len l ->
  exists x, nth_error l (Z.to_nat (i mod len l)) = Some x
            /\ py_getitem l i = Ok x.
Proof.
  intros Hi. unfold py_getitem.
  assert (Hmod : i mod len l = if i <? 0 then i + len l else i).
  { destruct (Z.ltb_spec i 0).
    - symmetry. apply (Z.mod_unique _ _ (-1)); lia.
    - apply Z.mod_small. lia. }
  rewrite <- Hmod.
  assert (Hrange : 0 <= i mod len l < len l) by (apply Z.mod_pos_bound; lia).
  destruct (Z.ltb_spec (i mod len l) 0) as [H|_]; [lia|].
  destruct (nth_error l (Z.to_nat (i mod len l))) as [x|] eqn:Hx.
  - now exists x.
  - apply nth_error_None in Hx. unfold len in *. lia.
Qed.

Lemma pdf_loop_mod (pages : list Page) (indices : list Z) :
  Forall (fun i => - len pages <= i < len pages) indices ->
  forall acc,
    pdf_loop pages indices acc
    = Ok (acc ++ List.concat (List.map (page_at pages) indices)).
Proof.
  induction 1 as [|i rest Hi Hrest IH]; intros acc; simpl.
  - now rewrite app_nil_r.
  - destruct (py_getitem_mod pages i Hi) as [page [Hnth Hget]].
    rewrite Hget. cbn [rbind]. rewrite IH.
    unfold page_at at 2. rewrite Hnth, text_or_empty_page_text.
    now rewrite app_assoc.
Qed.

Lemma pages_between_split {A} (l : list A) (a b c : Z) :
  0 <= a <= b -> b <= c ->
  pages_between l a c = pages_between l a b ++ pages_between l b c.
Proof.
  intros Hab Hbc. unfold pages_between.
  replace (Z.to_nat (c - a))
    with (Z.to_nat (b - a) + Z.to_nat (c - b))%nat by lia.
  replace (Z.to_nat b) with (Z.to_nat (b - a) + Z.to_nat a)%nat by lia.
  rewrite <- skipn_skipn.
  generalize (skipn (Z.to_nat a) l) as l'.
  generalize (Z.to_nat (b - a)) as m. generalize (Z.to_nat (c - b)) as k.
  intros k m. induction m as [|m IH]; intros l'; [reflexivity|].
  destruct l' as [|x l']; simpl.
  - now rewrite firstn_nil.
  - now rewrite IH.
Qed.

Lemma pages_between_past_the_end {A} (l : list A) (a b : Z) :
  len l <= a -> pages_between l a b = [].
Proof.
  intros H. unfold pages_between. rewrite skipn_all2.
  - apply firstn_nil.
  - unfold len in H. lia.
Qed.

Lemma pages_between_first_five {A} (l : list A) :
  pages_between l 0 (Z.min 5 (len l)) = firstn 5 l.
Proof.
  unfold pages_between. change (Z.to_nat 0) with 0%nat. cbn [skipn].
  rewrite Z.sub_0_r.
  destruct (Z.le_ge_cases 5 (len l)) as [H|H].
  - rewrite Z.min_l by exact H. reflexivity.
  - rewrite Z.min_r by exact H. unfold len in *. rewrite Nat2Z.id.
    rewrite firstn_all. symmetry. apply firstn_all2. lia.
Qed.

(** X1. A window that is empty or lies beyond the last page gives the
    empty text and raises nothing, whatever the sign of its bounds. *)
Theorem extract_text_from_pdf_empty_window
  (file : UploadedFile) (pages : list Page) (start_page end_page : Z) :
  pdfplumber_open file = Ok pages ->
  end_page <= start_page \/ len pages <= start_page ->
  extract_text_from_pdf file start_page end_page = Ok [].
Proof.
  intros Hopen Hwindow. unfold extract_text_from_pdf.
  rewrite Hopen. cbn [rbind]. rewrite range_empty; [reflexivity|]. lia.
Qed.

(** X2. A window that is not empty and starts more than n pages before
    page 0 raises IndexError: the clamp protects the end of the window
    only. *)
Theorem extract_text_from_pdf_before_first_page
  (file : UploadedFile) (pages : list Page) (start_page end_page : Z) :
  pdfplumber_open file = Ok pages ->
  start_page < - len pages ->
  start_page < end_page ->
  extract_text_from_pdf file start_page end_page = Raise IndexError.
Proof.
  intros Hopen Hstart Hend. unfold extract_text_from_pdf.
  rewrite Hopen. cbn [rbind].
  assert (Hlen : 0 <= len pages) by (unfold len; lia).
  destruct (range_first start_page (Z.min end_page (len pages)))
    as [rest ->]; [lia|].
  cbn [pdf_loop]. unfold py_getitem.
  destruct (Z.ltb_spec start_page 0) as [_|H]; [|lia].
  destruct (Z.ltb_spec (start_page + len pages) 0) as [_|H]; [|lia].
  reflexivity.
Qed.

(** X3. For a start from -n on, the indices of the window are taken modulo
    the number of pages: a negative start reads pages from the end of the
    document before it reaches page 0, and nothing is raised. *)
Theorem extract_text_from_pdf_counts_from_the_end
  (file : UploadedFile) (pages : list Page) (start_page end_page : Z) :
  pdfplumber_open file = Ok pages ->
  - len pages <= start_page ->
  extract_text_from_pdf file start_page end_page
  = Ok (List.concat
          (List.map (page_at pages)
                    (range start_page (Z.min end_page (len pages))))).
Proof.
  intros Hopen Hstart. unfold extract_text_from_pdf.
  rewrite Hopen. cbn [rbind]. rewrite pdf_loop_mod; [reflexivity|].
  eapply Forall_impl; [|apply range_bounds].
  cbv beta. intros i Hi. lia.
Qed.

(** X4. Windows compose: for 0 <= a <= b <= c the text of the window
    (a, c) is the text of (a, b) followed by the text of (b, c). *)
Theorem extract_text_from_pdf_windows_compose
  (file : UploadedFile) (pages : list Page) (a b c : Z) :
  pdfplumber_open file = Ok pages ->
  0 <= a <= b ->
  b <= c ->
  exists t1 t2,
    extract_text_from_pdf file a b = Ok t1
    /\ extract_text_from_pdf file b c = Ok t2
    /\ extract_text_from_pdf file a c = Ok (t1 ++ t2).
Proof.
  intros Hopen Hab Hbc. unfold extract_text_from_pdf.
  rewrite Hopen. cbn [rbind].
  rewrite !pdf_loop_window by lia. cbn [app].
  do 2 eexists. split; [reflexivity|]. split; [reflexivity|].
  f_equal. rewrite <- concat_app, <- map_app. do 2 f_equal.
  assert (Hlen : 0 <= len pages) by (unfold len; lia).
  destruct (Z.le_gt_cases b (len pages)) as [Hb|Hb].
  - rewrite (Z.min_l b) by exact Hb.
    apply pages_between_split; lia.
  - rewrite (Z.min_r b), (Z.min_r c) by lia.
    rewrite (pages_between_past_the_end pages b) by lia.
    now rewrite app_nil_r.
Qed.

(** X5. The PDF branch reads the first five pages only: two PDFs with the
    same first five pages produce the same calls on the page and the same
    outcome, whatever their names and their later pages. *)
Theorem pdf_handling_reads_five_pages
  (lib : WordCloud -> str -> option exn)
  (f1 f2 : UploadedFile) (pages1 pages2 : list Page) :
  pdfplumber_open f1 = Ok pages1 ->
  pdfplumber_open f2 = Ok pages2 ->
  firstn 5 pages1 = firstn 5 pages2 ->
  pdf_handling lib f1 = pdf_handling lib f2.
Proof.
  intros H1 H2 Hfive. unfold pdf_handling, extract_text_from_pdf.
  rewrite H1, H2. cbn [rbind].
  assert (Hlen : forall l : list Page, 0 <= len l) by (unfold len; lia).
  rewrite !pdf_loop_window by lia.
  now rewrite !pages_between_first_five, Hfive.
Qed.

(* ------------------------------------------------------------------ *)
(** ** The shape of a run of each branch *)

Lemma csv_chart_trace (ui : Session) (df : DataFrame) :
  exists figs,
    (List.length figs <= 1)%nat
    /\ csv_chart ui df
       = (st_multiselect (lit "Select Columns to Visualize") (columns df)
            :: List.map st_plotly_chart figs, Ok tt).
Proof.
  destruct (selected_columns ui) as [|c0 [|c1 rest]] eqn:Hsel.
  - exists []. split; [simpl; lia|].
    apply csv_chart_below_two. rewrite Hsel. simpl. lia.
  - exists []. split; [simpl; lia|].
    apply csv_chart_below_two. rewrite Hsel. simpl. lia.
  - destruct (csv_chart_two ui df c0 c1 rest Hsel) as [fig [Hrun _]].
    exists [fig]. split; [simpl; lia | exact Hrun].
Qed.

Lemma excel_chart_trace (ui : Session) (df : DataFrame) :
  exists figs,
    (List.length figs <= 1)%nat
    /\ excel_chart ui df
       = (st_multiselect (lit "Select Columns to Visualize") (columns df)
            :: List.map st_plotly_chart figs, Ok tt).
Proof.
  destruct (selected_columns ui) as [|c0 [|c1 rest]] eqn:Hsel.
  - exists []. split; [simpl; lia|].
    apply excel_chart_below_two. rewrite Hsel. simpl. lia.
  - exists []. split; [simpl; lia|].
    apply excel_chart_below_two. rewrite Hsel. simpl. lia.
  - destruct (excel_chart_two ui df c0 c1 rest Hsel) as [fig [Hrun _]].
    exists [fig]. split; [simpl; lia | exact Hrun].
Qed.

Lemma csv_handling_eq (ui : Session) (file : UploadedFile) :
  csv_handling ui file
  = match pd_read_csv file with
    | Ok df =>
        (st_subheader (bookmark_tabs ++ lit " Data Preview")
           :: st_dataframe (head df) :: calls (csv_chart ui df),
         outcome (csv_chart ui df))
    | Raise e => ([], Raise e)
    end.
Proof.
  unfold csv_handling, read_csv, subheader, dataframe.
  destruct (pd_read_csv file) as [df|e]; [|reflexivity].
  now rewrite bind_lift_ok, !bind_call.
Qed.

(** Reading a sheet by a name taken from the list of sheet names finds a
    sheet of that name. *)
Lemma find_listed_sheet (xls : list (str * DataFrame)) (k : nat) (sheet : str) :
  nth_error (List.map fst xls) k = Some sheet ->
  exists df,
    find (fun entry => str_eqb (fst entry) sheet) xls = Some (sheet, df)
    /\ In (sheet, df) xls.
Proof.
  intros Hnth. apply nth_error_In in Hnth.
  apply in_map_iff in Hnth as [[sheet' df'] [Hfst Hin]]. simpl in Hfst.
  subst sheet'.
  destruct (find (fun entry => str_eqb (fst entry) sheet) xls)
    as [[sheet'' df]|] eqn:Hfind.
  - apply find_some in Hfind as [Hin' Heq]. simpl in Heq.
    apply str_eqb_eq in Heq. subst sheet''. now exists df.
  - apply (find_none _ _ Hfind) in Hin. simpl in Hin.
    now rewrite str_eqb_refl in Hin.
Qed.

Lemma excel_handling_eq (ui : Session) (file : UploadedFile) :
  excel_handling ui file
  = match pd_ExcelFile file with
    | Raise e => ([], Raise e)
    | Ok xls =>
        match nth_error (List.map fst xls) (sheet_choice ui) with
        | None =>
            ([st_selectbox (lit "Choose a Sheet") (List.map fst xls);
              st_subheader (bookmark_tabs ++ lit " Data Preview: None")],
             Raise AttributeError)
        | Some sheet =>
            match find (fun entry => str_eqb (fst entry) sheet) xls with
            | Some entry =>
                (st_selectbox (lit "Choose a Sheet") (List.map fst xls)
                   :: st_subheader
                        (bookmark_tabs ++ lit " Data Preview: " ++ sheet)
                   :: st_dataframe (head (snd entry))
                   :: calls (excel_chart ui (snd entry)),
                 outcome (excel_chart ui (snd entry)))
            | None =>
                ([st_selectbox (lit "Choose a Sheet") (List.map fst xls)],
                 Raise (LibraryError (lit "Worksheet not found")))
            end
        end
    end.
Proof.
  unfold excel_handling, get_excel_sheet_names, read_excel, subheader,
    dataframe.
  destruct (pd_ExcelFile file) as [xls|e]; [|reflexivity].
  cbn [rbind]. rewrite bind_lift_ok, bind_selectbox.
  destruct (nth_error (List.map fst xls) (sheet_choice ui)) as [sheet|].
  - destruct (find (fun entry => str_eqb (fst entry) sheet) xls)
      as [entry|]; [|reflexivity].
    now rewrite bind_lift_ok, !bind_call.
  - now rewrite bind_lift_ok, bind_call.
Qed.

Lemma extract_first_five (file : UploadedFile) :
  extract_text_from_pdf file 0 5
  = match pdfplumber_open file with
    | Ok pages => Ok (List.concat (List.map page_text (firstn 5 pages)))
    | Raise e => Raise e
    end.
Proof.
  unfold extract_text_from_pdf.
  destruct (pdfplumber_open file) as [pages|e]; [|reflexivity].
  cbn [rbind].
  assert (Hlen : 0 <= len pages) by (unfold len; lia).
  rewrite pdf_loop_window by lia.
  now rewrite pages_between_first_five.
Qed.

Lemma pdf_handling_eq (lib : WordCloud -> str -> option exn) (file : UploadedFile) :
  pdf_handling lib file
  = match extract_text_from_pdf file 0 5 with
    | Ok text =>
        (st_subheader (bookmark_tabs ++ lit " Extracted Text from PDF")
           :: calls (show_text lib text (cloud ++ lit " Word Cloud from PDF")),
         outcome (show_text lib text (cloud ++ lit " Word Cloud from PDF")))
    | Raise e =>
        ([st_subheader (bookmark_tabs ++ lit " Extracted Text from PDF")],
         Raise e)
    end.
Proof.
  destruct (extract_text_from_pdf file 0 5) as [text|e] eqn:Htext.
  - exact (pdf_handling_show_text lib file text Htext).
  - unfold pdf_handling, subheader. now rewrite Htext, bind_call.
Qed.

Lemma docx_handling_eq (lib : WordCloud -> str -> option exn) (file : UploadedFile) :
  docx_handling lib file
  = match extract_text_from_docx file with
    | Ok text =>
        (st_subheader
           (bookmark_tabs ++ lit " Extracted Text from Word Document")
           :: calls (show_text lib text
                       (cloud ++ lit " Word Cloud from Word Document")),
         outcome (show_text lib text
                    (cloud ++ lit " Word Cloud from Word Document")))
    | Raise e =>
        ([st_subheader
            (bookmark_tabs ++ lit " Extracted Text from Word Document")],
         Raise e)
    end.
Proof.
  destruct (extract_text_from_docx file) as [text|e] eqn:Htext.
  - exact (docx_handling_show_text lib file text Htext).
  - unfold docx_handling, subheader. now rewrite Htext, bind_call.
Qed.

Lemma charts_of_plotly (figs : list Figure) :
  charts_of (List.map st_plotly_chart figs) = figs.
Proof.
  induction figs as [|fig figs IH]; [reflexivity|].
  simpl. now f_equal.
Qed.

Lemma clouds_of_plotly (figs : list Figure) :
  clouds_of (List.map st_plotly_chart figs) = [].
Proof. induction figs as [|fig figs IH]; [reflexivity | exact IH]. Qed.

Lemma written_of_plotly (figs : list Figure) :
  written_of (List.map st_plotly_chart figs) = [].
Proof. induction figs as [|fig figs IH]; [reflexivity | exact IH]. Qed.

Lemma handle_rendering (lib : WordCloud -> str -> option exn)
  (ui : Session) (file : UploadedFile) (tag : FormatTag) :
  let out := calls (handle lib ui file tag) in
  (List.length (charts_of out) <= 1)%nat
  /\ (List.length (clouds_of out) <= 1)%nat
  /\ (List.length (written_of out) <= 1)%nat
  /\ (charts_of out = [] \/ (clouds_of out = [] /\ written_of out = [])).
Proof.
  destruct tag; cbn [handle].
  - rewrite excel_handling_eq.
    destruct (pd_ExcelFile file) as [xls|e]; [|simpl; repeat split; try lia; auto].
    destruct (nth_error (List.map fst xls) (sheet_choice ui)) as [sheet|];
      [|simpl; repeat split; try lia; auto].
    destruct (find (fun entry => str_eqb (fst entry) sheet) xls)
      as [entry|]; [|simpl; repeat split; try lia; auto].
    destruct (excel_chart_trace ui (snd entry)) as [figs [Hlen ->]].
    destruct figs as [|fig [|fig' figs]]; simpl in Hlen; try lia;
      cbn [calls fst charts_of clouds_of written_of flat_map app List.map
           List.length]; repeat split; try lia; auto.
  - rewrite csv_handling_eq.
    destruct (pd_read_csv file) as [df|e]; [|simpl; repeat split; try lia; auto].
    destruct (csv_chart_trace ui df) as [figs [Hlen ->]].
    destruct figs as [|fig [|fig' figs]]; simpl in Hlen; try lia;
      cbn [calls fst charts_of clouds_of written_of flat_map app List.map
           List.length]; repeat split; try lia; auto.
  - rewrite pdf_handling_eq.
    destruct (extract_text_from_pdf file 0 5) as [text|e]; [|simpl; repeat split; try lia; auto].
    rewrite show_text_eq. destruct (truthy text);
      [destruct (generate_wordcloud lib text)|];
      cbn [calls fst charts_of clouds_of written_of flat_map app
           List.length]; repeat split; try lia; auto.
  - rewrite docx_handling_eq.
    destruct (extract_text_from_docx file) as [text|e]; [|simpl; repeat split; try lia; auto].
    rewrite show_text_eq. destruct (truthy text);
      [destruct (generate_wordcloud lib text)|];
      cbn [calls fst charts_of clouds_of written_of flat_map app
           List.length]; repeat split; try lia; auto.
Qed.

Lemma handle_outcome (lib : WordCloud -> str -> option exn) (ui : Session) (file : UploadedFile)
  (tag : FormatTag) (e : exn) :
  outcome (handle lib ui file tag) = Raise e ->
  parser_error tag file = Some e
  \/ (e = AttributeError /\ tag = Spreadsheet
      /\ exists xls, pd_ExcelFile file = Ok xls
                     /\ (List.length xls <= sheet_choice ui)%nat)
  \/ (exists body,
        ((tag = PortableDocument /\ extract_text_from_pdf file 0 5 = Ok body)
         \/ (tag = WordDocument /\ extract_text_from_docx file = Ok body))
        /\ body <> []
        /\ generate_wordcloud lib body = Raise e).
Proof.
  assert (Htext : forall body heading,
             outcome (show_text lib body heading) = Raise e ->
             body <> [] /\ generate_wordcloud lib body = Raise e).
  { intros body heading. rewrite show_text_eq. cbn [outcome snd].
    destruct body as [|c body]; [discriminate|]. cbn [truthy].
    destruct (generate_wordcloud lib (c :: body)); [discriminate|].
    intros [= ->]. split; [discriminate | reflexivity]. }
  destruct tag; cbn [handle parser_error].
  - rewrite excel_handling_eq.
    destruct (pd_ExcelFile file) as [xls|e'] eqn:Hxls;
      [|cbn; intros [= ->]; now left].
    destruct (nth_error (List.map fst xls) (sheet_choice ui)) as [sheet|]
      eqn:Hnth.
    + destruct (find_listed_sheet xls _ sheet Hnth) as [df [Hfind _]].
      rewrite Hfind.
      destruct (excel_chart_trace ui (snd (sheet, df))) as [figs [_ ->]].
      discriminate.
    + cbn. intros [= <-]. right. left. repeat split. exists xls.
      split; [reflexivity|].
      apply nth_error_None in Hnth. now rewrite length_map in Hnth.
  - rewrite csv_handling_eq.
    destruct (pd_read_csv file) as [df|e']; [|cbn; intros [= ->]; now left].
    destruct (csv_chart_trace ui df) as [figs [_ ->]]. discriminate.
  - rewrite pdf_handling_eq.
    destruct (extract_text_from_pdf file 0 5) as [body|e'] eqn:Hbody.
    + cbn [outcome snd]. intros Hraise. right. right. exists body.
      destruct (Htext body _ Hraise) as [Hne Hgen]. split; [|now split].
      left. now split.
    + cbn. intros [= ->]. left.
      rewrite extract_first_five in Hbody.
      destruct (pdfplumber_open file); [discriminate|].
      now injection Hbody as ->.
  - rewrite docx_handling_eq.
    destruct (extract_text_from_docx file) as [body|e'] eqn:Hbody.
    + cbn [outcome snd]. intros Hraise. right. right. exists body.
      destruct (Htext body _ Hraise) as [Hne Hgen]. split; [|now split].
      right. now split.
    + cbn. intros [= ->]. left.
      unfold extract_text_from_docx in Hbody.
      destruct (docx_Document file); [discriminate|].
      now injection Hbody as ->.
Qed.

Lemma handle_parser_failure (lib : WordCloud -> str -> option exn)
  (ui : Session) (file : UploadedFile)
  (tag : FormatTag) (e : exn) :
  parser_error tag file = Some e ->
  exists out,
    handle lib ui file tag = (out, Raise e)
    /\ (List.length out <= 1)%nat
    /\ charts_of out = [] /\ clouds_of out = [] /\ written_of out = [].
Proof.
  destruct tag; cbn [handle parser_error]; intros Herr.
  - rewrite excel_handling_eq.
    destruct (pd_ExcelFile file) as [xls|e']; [discriminate|].
    injection Herr as ->. exists []. repeat split. simpl. lia.
  - rewrite csv_handling_eq.
    destruct (pd_read_csv file) as [df|e']; [discriminate|].
    injection Herr as ->. exists []. repeat split. simpl. lia.
  - rewrite pdf_handling_eq, extract_first_five.
    destruct (pdfplumber_open file) as [pages|e']; [discriminate|].
    injection Herr as ->. eexists. split; [reflexivity|].
    repeat split; simpl; lia.
  - rewrite docx_handling_eq. unfold extract_text_from_docx.
    destruct (docx_Document file) as [doc|e']; [discriminate|].
    injection Herr as ->. eexists. split; [reflexivity|].
    repeat split; simpl; lia.
Qed.

Lemma handle_same_for (lib : WordCloud -> str -> option exn)
  (ui : Session) (f1 f2 : UploadedFile) (tag : FormatTag) :
  same_for tag f1 f2 ->
  handle lib (with_file ui f1) f1 tag
  = handle lib (with_file ui f2) f2 tag.
Proof.
  intros [_ Hparse]. destruct tag; cbn [handle].
  - rewrite !excel_handling_eq, Hparse. reflexivity.
  - rewrite !csv_handling_eq, Hparse. reflexivity.
  - unfold pdf_handling, extract_text_from_pdf. now rewrite Hparse.
  - unfold docx_handling, extract_text_from_docx. now rewrite Hparse.
Qed.

(** X6. The dispatch and the uploader agree: a file type selects a branch
    of the [if]/[elif] chain exactly when it is one of the types the
    uploader offers. *)
Theorem dispatch_matches_uploader_types (file_type : str) :
  (exists tag, classify file_type = Some tag) <-> In file_type accepted.
Proof.
  split.
  - intros [tag Htag].
    destruct (in_dec (list_eq_dec N.eq_dec) file_type accepted) as [H|H];
      [exact H|].
    rewrite (classify_unsupported file_type H) in Htag. discriminate.
  - unfold accepted. simpl.
    intros [<-|[<-|[<-|[<-|[<-|[]]]]]]; eexists; reflexivity.
Qed.

(* ------------------------------------------------------------------ *)
(** ** More on the text branches and on the charts *)





(** X8. The text shown on the page has at most 2003 characters, and its
    first 2000 characters are the first 2000 characters of the extracted
    text. *)
Theorem preview_is_bounded (body : str) :
  len (preview body) <= 2003
  /\ firstn 2000 (preview body) = firstn 2000 body.
Proof.
  destruct (Z.le_gt_cases (len body) 2000) as [Hshort|Hlong].
  - rewrite preview_short by exact Hshort. split; [lia | reflexivity].
  - rewrite preview_long by lia.
    assert (Hlen : List.length (firstn 2000 body) = 2000%nat).
    { apply firstn_length_le. unfold len in Hlong. lia. }
    split.
    + unfold len. rewrite length_app, Hlen.
      change (List.length (lit "...")) with 3%nat. lia.
    + rewrite firstn_app, Hlen, Nat.sub_diag, firstn_firstn.
      rewrite Nat.min_id. cbn [firstn]. apply app_nil_r.
Qed.

Lemma same_name_same_sheet (xls : list (str * DataFrame)) (k : nat)
  (sheet : str) (df df' : DataFrame) :
  NoDup (List.map fst xls) ->
  In (sheet, df) xls ->
  nth_error xls k = Some (sheet, df') ->
  df = df'.
Proof.
  intros Hnd Hin Hnth. apply nth_error_In in Hnth.
  induction xls as [|[s d] xls IH]; [destruct Hin|].
  simpl in Hnd. inversion Hnd as [|x l Hx Hrest]; subst.
  destruct Hin as [Hin|Hin], Hnth as [Hnth|Hnth].
  - congruence.
  - inversion Hin; subst. destruct Hx.
    change sheet with (fst (sheet, df')). now apply in_map.
  - inversion Hnth; subst. destruct Hx.
    change sheet with (fst (sheet, df)). now apply in_map.
  - now apply IH.
Qed.

(** X9. When the workbook opens and the pick is one of its sheets, the
    Excel branch cannot fail: the sheet of the picked name is found, its
    first rows are previewed under a heading with its name, the chart
    step runs on the whole sheet, and the branch ends without error.  When
    the sheet names are distinct, the sheet read is the one at the picked
    position. *)
Theorem excel_handling_reads_the_picked_sheet
  (ui : Session) (file : UploadedFile) (xls : list (str * DataFrame))
  (sheet : str) :
  pd_ExcelFile file = Ok xls ->
  nth_error (List.map fst xls) (sheet_choice ui) = Some sheet ->
  exists df,
    In (sheet, df) xls
    /\ read_excel file sheet = Ok df
    /\ calls (excel_handling ui file)
       = st_selectbox (lit "Choose a Sheet") (List.map fst xls)
           :: st_subheader (bookmark_tabs ++ lit " Data Preview: " ++ sheet)
           :: st_dataframe (head df)
           :: calls (excel_chart ui df)
    /\ outcome (excel_handling ui file) = Ok tt
    /\ (NoDup (List.map fst xls) ->
        nth_error xls (sheet_choice ui) = Some (sheet, df)).
Proof.
  intros Hxls Hnth.
  destruct (find_listed_sheet xls _ sheet Hnth) as [df [Hfind Hin]].
  exists df. split; [exact Hin|].
  split; [unfold read_excel; now rewrite Hxls; cbn [rbind]; rewrite Hfind|].
  rewrite excel_handling_eq, Hxls, Hnth, Hfind. cbn [snd calls outcome fst].
  split; [reflexivity|]. split.
  - now destruct (excel_chart_trace ui df) as [figs [_ ->]].
  - intros Hnd.
    destruct (nth_error xls (sheet_choice ui)) as [[sheet' df']|] eqn:Hk.
    + assert (sheet' = sheet).
      { rewrite nth_error_map, Hk in Hnth. simpl in Hnth. congruence. }
      subst sheet'. f_equal. f_equal. symmetry.
      exact (same_name_same_sheet xls _ sheet df df' Hnd Hin Hk).
    + rewrite nth_error_map, Hk in Hnth. discriminate.
Qed.

(** X10. With two or more columns selected, the figure of the Excel
    branch is titled with the y column, the words of the chart kind and
    the x column, while the figure of the CSV branch has no title. *)
Theorem excel_charts_are_titled
  (ui : Session) (df : DataFrame) (c0 c1 : str) (rest : list str) :
  selected_columns ui = c0 :: c1 :: rest ->
  List.map figure_title (charts_of (calls (excel_chart ui df)))
  = [Some (c1 ++ title_connective (chart_type ui) ++ c0)]
  /\ List.map figure_title (charts_of (calls (csv_chart ui df))) = [None].
Proof.
  intros Hsel. unfold excel_chart, csv_chart, plotly_chart.
  rewrite Hsel, !bind_multiselect, !len_two_or_more.
  destruct (chart_type ui); split; reflexivity.
Qed.

(* ------------------------------------------------------------------ *)
(** ** More on the main logic *)

Section MainProperties.

Variable unicode_lower : str -> str.
Variable wordcloud_raises : WordCloud -> str -> option exn.

Lemma main_branch (ui : Session) (file : UploadedFile) :
  uploaded_file ui = Some file ->
  exists file_type,
    file_type_of unicode_lower file = Ok file_type
    /\ main unicode_lower wordcloud_raises ui
       = match classify file_type with
         | Some tag => handle wordcloud_raises ui file tag
         | None => ret tt
         end.
Proof.
  intros Hfile.
  destruct (py_getitem_split_last 46%N (name file)) as [piece Hpiece].
  assert (Htype : file_type_of unicode_lower file
                  = Ok (lower unicode_lower piece)).
  { unfold file_type_of. now rewrite Hpiece. }
  exists (lower unicode_lower piece). split; [exact Htype|].
  exact (main_classify unicode_lower wordcloud_raises ui file _ Hfile Htype).
Qed.

(** X11. Only the text after the last dot of the name decides the file
    type: for a name ending in a dot and a tail without dots, and for a
    name without any dot (then the tail is the whole name), the file type
    is the tail in lower case. *)
Theorem file_type_is_the_tail_after_the_last_dot
  (file : UploadedFile) (stem tail : str) :
  ~ In 46%N tail ->
  name file = tail \/ name file = stem ++ lit "." ++ tail ->
  file_type_of unicode_lower file = Ok (lower unicode_lower tail).
Proof.
  intros Hdot Hname. unfold file_type_of.
  destruct Hname as [-> | ->].
  - rewrite (split_without_sep _ tail Hdot).
    pose proof (py_getitem_last [] tail) as Hlast. cbn [app] in Hlast.
    now rewrite Hlast.
  - change (lit "." ++ tail) with (46%N :: tail).
    rewrite split_app_sep, (split_without_sep _ tail Hdot).
    now rewrite py_getitem_last.
Qed.

(** X12. The main logic raises only what a library raises: when a run
    ends with an exception, a file was uploaded, its type selected a
    branch, and either the parser of that branch failed with this
    exception, or the branch is the Excel one, the workbook opened, and
    the picked position is beyond its sheets (then the exception is
    AttributeError), or the branch is a text branch, the text was
    extracted and is not empty, and the word-cloud library raised this
    exception on it.  In particular no index of the script itself is ever
    out of range. *)
Theorem main_raises_only_library_errors (ui : Session) (e : exn) :
  outcome (main unicode_lower wordcloud_raises ui) = Raise e ->
  exists file file_type tag,
    uploaded_file ui = Some file
    /\ file_type_of unicode_lower file = Ok file_type
    /\ classify file_type = Some tag
    /\ (parser_error tag file = Some e
        \/ (e = AttributeError /\ tag = Spreadsheet
            /\ exists xls, pd_ExcelFile file = Ok xls
                           /\ (List.length xls <= sheet_choice ui)%nat)
        \/ (exists body,
              ((tag = PortableDocument
                /\ extract_text_from_pdf file 0 5 = Ok body)
               \/ (tag = WordDocument
                   /\ extract_text_from_docx file = Ok body))
              /\ body <> []
              /\ generate_wordcloud wordcloud_raises body = Raise e)).
Proof.
  intros Hraise.
  destruct (uploaded_file ui) as [file|] eqn:Hfile.
  - destruct (main_branch ui file Hfile) as [file_type [Htype Hmain]].
    rewrite Hmain in Hraise.
    destruct (classify file_type) as [tag|] eqn:Htag; [|discriminate].
    exists file, file_type, tag. repeat split; auto.
    now apply (handle_outcome wordcloud_raises ui).
  - unfold main in Hraise. rewrite Hfile in Hraise. discriminate.
Qed.

(** X13. When the parser of the selected branch fails, the run ends with
    the parser's exception, having made at most one call on the page (the
    heading of a text branch): no table, chart, text or word cloud is
    shown. *)
Theorem parser_failure_stops_the_run
  (ui : Session) (file : UploadedFile) (file_type : str) (tag : FormatTag)
  (e : exn) :
  uploaded_file ui = Some file ->
  file_type_of unicode_lower file = Ok file_type ->
  classify file_type = Some tag ->
  parser_error tag file = Some e ->
  outcome (main unicode_lower wordcloud_raises ui) = Raise e
  /\ (List.length (calls (main unicode_lower wordcloud_raises ui)) <= 1)%nat
  /\ charts_of (calls (main unicode_lower wordcloud_raises ui)) = []
  /\ clouds_of (calls (main unicode_lower wordcloud_raises ui)) = []
  /\ written_of (calls (main unicode_lower wordcloud_raises ui)) = [].
Proof.
  intros Hfile Htype Htag Herr.
  rewrite (main_classify unicode_lower wordcloud_raises ui file file_type
             Hfile Htype), Htag.
  destruct (handle_parser_failure wordcloud_raises ui file tag e Herr)
    as [out [-> [Hlen [Hcharts [Hclouds Hwritten]]]]].
  cbn [calls outcome fst snd]. repeat split; assumption.
Qed.

(** X14. A run of the main logic shows at most one chart, at most one text
    and at most one word cloud, and never a chart together with a text or
    a word cloud. *)
Theorem main_shows_a_chart_or_a_text (ui : Session) :
  let out := calls (main unicode_lower wordcloud_raises ui) in
  (List.length (charts_of out) <= 1)%nat
  /\ (List.length (clouds_of out) <= 1)%nat
  /\ (List.length (written_of out) <= 1)%nat
  /\ (charts_of out = [] \/ (clouds_of out = [] /\ written_of out = [])).
Proof.
  destruct (uploaded_file ui) as [file|] eqn:Hfile.
  - destruct (main_branch ui file Hfile) as [file_type [_ ->]].
    destruct (classify file_type) as [tag|].
    + apply handle_rendering.
    + simpl. repeat split; try lia. now left.
  - unfold main. rewrite Hfile. simpl. repeat split; try lia. now left.
Qed.

(** X15. A run depends on the uploaded file only through its name and the
    outcome of the one parser its file type selects: two files with the
    same name on which that parser gives the same outcome lead to the same
    calls and the same outcome, whatever the other parsers would make of
    them. *)
Theorem main_consults_one_parser
  (ui : Session) (f1 f2 : UploadedFile) (file_type : str) (tag : FormatTag) :
  file_type_of unicode_lower f1 = Ok file_type ->
  classify file_type = Some tag ->
  same_for tag f1 f2 ->
  main unicode_lower wordcloud_raises (with_file ui f1) = main unicode_lower wordcloud_raises (with_file ui f2).
Proof.
  intros Htype Htag Hsame.
  assert (Htype2 : file_type_of unicode_lower f2 = Ok file_type).
  { destruct Hsame as [Hname _]. unfold file_type_of in *.
    now rewrite <- Hname. }
  rewrite (main_classify unicode_lower wordcloud_raises
             (with_file ui f1) f1 file_type
             eq_refl Htype).
  rewrite (main_classify unicode_lower wordcloud_raises
             (with_file ui f2) f2 file_type
             eq_refl Htype2).
  rewrite Htag. now apply handle_same_for.
Qed.

End MainProperties.

(* ------------------------------------------------------------------ *)
(** ** The further properties on the sample inputs *)

Lemma extract_text_from_pdf_empty_window_witness :
  pdfplumber_open ten_page_pdf = Ok ten_pages
  /\ (3 <= 7 \/ len ten_pages <= 7)
  /\ extract_text_from_pdf ten_page_pdf 7 3 = Ok [].
Proof.
  split; [reflexivity|]. split; [left; lia|].
  apply (extract_text_from_pdf_empty_window ten_page_pdf ten_pages 7 3);
    [reflexivity | left; lia].
Defined.

Lemma extract_text_from_pdf_before_first_page_witness :
  pdfplumber_open ten_page_pdf = Ok ten_pages
  /\ -11 < - len ten_pages
  /\ -11 < 1
  /\ extract_text_from_pdf ten_page_pdf (-11) 1 = Raise IndexError.
Proof.
  split; [reflexivity|]. split; [vm_compute; reflexivity|].
  split; [lia|].
  apply (extract_text_from_pdf_before_first_page ten_page_pdf ten_pages
           (-11) 1); [reflexivity | vm_compute; reflexivity | lia].
Defined.

Lemma extract_text_from_pdf_counts_from_the_end_witness :
  pdfplumber_open ten_page_pdf = Ok ten_pages
  /\ - len ten_pages <= -1
  /\ extract_text_from_pdf ten_page_pdf (-1) 1
     = Ok (List.concat
             (List.map (page_at ten_pages)
                       (range (-1) (Z.min 1 (len ten_pages))))).
Proof.
  split; [reflexivity|]. split; [vm_compute; discriminate|].
  apply (extract_text_from_pdf_counts_from_the_end ten_page_pdf ten_pages
           (-1) 1); [reflexivity | vm_compute; discriminate].
Defined.

Lemma extract_text_from_pdf_windows_compose_witness :
  pdfplumber_open ten_page_pdf = Ok ten_pages
  /\ 0 <= 0 <= 3
  /\ 3 <= 20
  /\ exists t1 t2,
      extract_text_from_pdf ten_page_pdf 0 3 = Ok t1
      /\ extract_text_from_pdf ten_page_pdf 3 20 = Ok t2
      /\ extract_text_from_pdf ten_page_pdf 0 20 = Ok (t1 ++ t2).
Proof.
  split; [reflexivity|]. split; [lia|]. split; [lia|].
  apply (extract_text_from_pdf_windows_compose ten_page_pdf ten_pages 0 3 20);
    [reflexivity | lia | lia].
Defined.

Lemma pdf_handling_reads_five_pages_witness :
  firstn 5 ten_pages = firstn 5 (ten_pages ++ [page_of "p10 "; page_of "p11"])
  /\ pdf_handling sample_library ten_page_pdf
     = pdf_handling sample_library twelve_page_pdf.
Proof.
  split; [reflexivity|].
  apply (pdf_handling_reads_five_pages sample_library ten_page_pdf
           twelve_page_pdf
           ten_pages (ten_pages ++ [page_of "p10 "; page_of "p11"]));
    reflexivity.
Defined.


Example blank_docx_run :
  docx_handling sample_library blank_docx
  = ([st_subheader
        (bookmark_tabs ++ lit " Extracted Text from Word Document");
      st_write []], Ok tt).
Proof. reflexivity. Qed.

(** A document of stop words only is not blank: the word cloud is
    requested, and the branch ends with the exception of the library. *)
Example the_docx_run :
  docx_handling sample_library the_docx
  = ([st_subheader
        (bookmark_tabs ++ lit " Extracted Text from Word Document");
      st_write (lit "the")], Raise ValueError).
Proof. reflexivity. Qed.

Lemma excel_handling_reads_the_picked_sheet_witness :
  pd_ExcelFile two_sheet_workbook
  = Ok [(lit "First", ab_table); (lit "Second", cab_table)]
  /\ nth_error [lit "First"; lit "Second"] (sheet_choice pie_session)
     = Some (lit "Second")
  /\ exists df,
      read_excel two_sheet_workbook (lit "Second") = Ok df
      /\ outcome (excel_handling pie_session two_sheet_workbook) = Ok tt.
Proof.
  split; [reflexivity|]. split; [reflexivity|].
  destruct (excel_handling_reads_the_picked_sheet pie_session
              two_sheet_workbook
              [(lit "First", ab_table); (lit "Second", cab_table)]
              (lit "Second") eq_refl eq_refl)
    as [df [_ [Hread [_ [Hok _]]]]].
  exists df. auto.
Defined.

Example pie_session_run :
  main no_case_tables sample_library pie_session
  = ([st_selectbox (lit "Choose a Sheet") [lit "First"; lit "Second"];
      st_subheader (bookmark_tabs ++ lit " Data Preview: Second");
      st_dataframe cab_table;
      st_multiselect (lit "Select Columns to Visualize")
                     [lit "C"; lit "A"; lit "B"];
      st_plotly_chart (px_pie cab_table (lit "C") (lit "B")
                         (Some (lit "B distribution by C")))],
     Ok tt).
Proof. reflexivity. Qed.

Lemma excel_charts_are_titled_witness :
  selected_columns pie_session = lit "C" :: lit "B" :: []
  /\ List.map figure_title
       (charts_of (calls (excel_chart pie_session cab_table)))
     = [Some (lit "B" ++ title_connective (chart_type pie_session)
                ++ lit "C")]
  /\ List.map figure_title
       (charts_of (calls (csv_chart pie_session cab_table))) = [None].
Proof.
  split; [reflexivity|].
  apply (excel_charts_are_titled pie_session cab_table (lit "C") (lit "B") []).
  reflexivity.
Defined.

Lemma file_type_is_the_tail_after_the_last_dot_witness :
  ~ In 46%N (lit "XlSx")
  /\ (name mixed_case_workbook = lit "XlSx"
      \/ name mixed_case_workbook = lit "Report.v2" ++ lit "." ++ lit "XlSx")
  /\ file_type_of no_case_tables mixed_case_workbook
     = Ok (lower no_case_tables (lit "XlSx")).
Proof.
  assert (Hdot : ~ In 46%N (lit "XlSx")).
  { simpl. intros [H|[H|[H|[H|[]]]]]; discriminate H. }
  split; [exact Hdot|]. split; [right; reflexivity|].
  apply (file_type_is_the_tail_after_the_last_dot no_case_tables
           mixed_case_workbook (lit "Report.v2") (lit "XlSx") Hdot).
  right. reflexivity.
Defined.

Lemma main_raises_only_library_errors_witness :
  outcome (main no_case_tables sample_library (bar_session the_docx []))
  = Raise ValueError
  /\ exists file file_type tag,
      uploaded_file (bar_session the_docx []) = Some file
      /\ file_type_of no_case_tables file = Ok file_type
      /\ classify file_type = Some tag.
Proof.
  split; [reflexivity|].
  destruct (main_raises_only_library_errors no_case_tables sample_library
              (bar_session the_docx []) ValueError eq_refl)
    as [file [file_type [tag [Hfile [Htype [Htag _]]]]]].
  exists file, file_type, tag. auto.
Defined.

Lemma parser_failure_stops_the_run_witness :
  uploaded_file (bar_session broken_pdf []) = Some broken_pdf
  /\ file_type_of no_case_tables broken_pdf = Ok (lit "pdf")
  /\ classify (lit "pdf") = Some PortableDocument
  /\ parser_error PortableDocument broken_pdf
     = Some (LibraryError (lit "No /Root object"))
  /\ outcome (main no_case_tables sample_library (bar_session broken_pdf []))
     = Raise (LibraryError (lit "No /Root object")).
Proof.
  split; [reflexivity|]. split; [reflexivity|]. split; [reflexivity|].
  split; [reflexivity|].
  apply (parser_failure_stops_the_run no_case_tables sample_library
           (bar_session broken_pdf []) broken_pdf (lit "pdf")
           PortableDocument (LibraryError (lit "No /Root object")));
    reflexivity.
Defined.

Lemma main_consults_one_parser_witness :
  file_type_of no_case_tables ab_csv = Ok (lit "csv")
  /\ classify (lit "csv") = Some DelimitedText
  /\ same_for DelimitedText ab_csv ab_csv_polyglot
  /\ main no_case_tables sample_library (with_file (bar_session ab_csv [lit "A"; lit "B"])
                                    ab_csv)
     = main no_case_tables sample_library (with_file (bar_session ab_csv [lit "A"; lit "B"])
                                      ab_csv_polyglot).
Proof.
  assert (Hsame : same_for DelimitedText ab_csv ab_csv_polyglot)
    by (split; reflexivity).
  split; [reflexivity|]. split; [reflexivity|]. split; [exact Hsame|].
  apply (main_consults_one_parser no_case_tables sample_library
           (bar_session ab_csv [lit "A"; lit "B"]) ab_csv ab_csv_polyglot
           (lit "csv") DelimitedText); [reflexivity | reflexivity | exact Hsame].
Defined.
